(** * Forge adapters of [autoupdate_app_sources/rest_api.py]

    A shallow embedding of the GitHub, GitLab, Gitea/Forgejo and
    download-page adapters.  Python strings are [string]s, decoded JSON
    documents are values of [json], exceptions are values of [exception],
    and every method runs in the monad [Net], which threads the log of the
    HTTP requests sent so far and reads the answers of the transport. *)

From Stdlib Require Import ZArith List Bool Ascii String Lia.
From Stdlib Require Import Numbers.DecimalString.
Import ListNotations.

Set Warnings "-register-all".

Open Scope list_scope.
Open Scope string_scope.

(** ** Python [str] methods *)

Module Str.
(** [c in chars] for a character [c]. *)
Fixpoint mem (c : ascii) (chars : string) : bool :=
  match chars with
  | EmptyString => false
  | String d chars' => Ascii.eqb c d || mem c chars'
  end.

(** [s.lstrip(chars)] *)
Fixpoint lstrip (chars s : string) : string :=
  match s with
  | EmptyString => EmptyString
  | String c s' => if mem c chars then lstrip chars s' else s
  end.

(** [s.rstrip(chars)] *)
Fixpoint rstrip (chars s : string) : string :=
  match s with
  | EmptyString => EmptyString
  | String c s' =>
      match rstrip chars s' with
      | EmptyString => if mem c chars then EmptyString else String c EmptyString
      | r => String c r
      end
  end.

(** [s.strip(chars)] *)
Definition strip (chars s : string) : string := lstrip chars (rstrip chars s).

(** [s.startswith(p)] *)
Fixpoint startswith (s p : string) {struct p} : bool :=
  match p, s with
  | EmptyString, _ => true
  | String a p', String b s' => Ascii.eqb b a && startswith s' p'
  | String _ _, EmptyString => false
  end.

(** [s.replace(old, new)] for a non-empty [old]: the occurrences of [old]
    are found from the left and do not overlap.  [skip] counts the
    characters of the occurrence just replaced that are still to be
    passed over. *)
Fixpoint replace_from (old new : string) (skip : nat) (s : string) : string :=
  match s with
  | EmptyString => EmptyString
  | String c s' =>
      match skip with
      | S k => replace_from old new k s'
      | O =>
          if startswith s old
          then new ++ replace_from old new (length old - 1) s'
          else String c (replace_from old new 0 s')
      end
  end.

(** [new.join(list(s))], what [s.replace("", new)] puts after the first
    [new]. *)
Fixpoint interleave (new s : string) : string :=
  match s with
  | EmptyString => EmptyString
  | String c s' => String c (new ++ interleave new s')
  end.

(** [s.replace(old, new)] *)
Definition replace (old new s : string) : string :=
  match old with
  | EmptyString => new ++ interleave new s
  | _ => replace_from old new 0 s
  end.

(** The segments of [s.split(sep)] for a non-empty [sep]: the segment
    being read and the segments after it. *)
Fixpoint split_from (sep : string) (skip : nat) (s : string)
  : string * list string :=
  match s with
  | EmptyString => (EmptyString, [])
  | String c s' =>
      match skip with
      | S k => split_from sep k s'
      | O =>
          if startswith s sep
          then let (seg, segs) := split_from sep (length sep - 1) s' in
               (EmptyString, seg :: segs)
          else let (seg, segs) := split_from sep 0 s' in
               (String c seg, segs)
      end
  end.

(** [s.split(sep)]; Python raises [ValueError] for an empty separator, the
    program only splits on ["/"]. *)
Definition split (sep s : string) : list string :=
  let (seg, segs) := split_from sep 0 s in seg :: segs.

(** [l[-1]] of a list of strings that is never empty here. *)
Definition last_item (l : list string) : string := List.last l EmptyString.

(** [str(n)] for an integer. *)
Definition of_Z (n : Z) : string := NilZero.string_of_int (Z.to_int n).

End Str.

(** ** Decoded JSON documents and the Python operations on them *)

(** What [Response.json()] yields.  A JSON object is a Python [dict], kept as
    the list of its items in insertion order; numbers are the integers. *)
Inductive json : Type :=
| JNull
| JBool (b : bool)
| JNum (n : Z)
| JStr (s : string)
| JArr (items : list json)
| JObj (fields : list (string * json)).

Inductive exception : Type :=
| HTTPError (status_code : Z)
| ConnectionError
| JSONDecodeError
| AssertionError (message : option string)
| KeyError (key : string)
| TypeError
| AttributeError
| StopIteration
| NotImplementedError
| ValueError.

(** The outcome of evaluating a Python expression. *)
Inductive outcome (A : Type) : Type :=
| Raised (e : exception)
| Returned (a : A).

Arguments Raised {A} e.
Arguments Returned {A} a.

Definition obind {A B : Type} (c : outcome A) (k : A -> outcome B) : outcome B :=
  match c with
  | Raised e => Raised e
  | Returned a => k a
  end.

Notation "'let?' x ':=' c 'in' k" := (obind c (fun x => k))
  (at level 10, x name, c at level 100, k at level 200).

(** A comprehension [[f(x) for x in l]], stopping at the first exception. *)
Fixpoint omap {A B : Type} (f : A -> outcome B) (l : list A) : outcome (list B) :=
  match l with
  | [] => Returned []
  | x :: l' =>
      let? y := f x in
      let? ys := omap f l' in
      Returned (y :: ys)
  end.

Module Py.

Fixpoint lookup {V : Type} (k : string) (d : list (string * V)) : option V :=
  match d with
  | [] => None
  | (k', v) :: d' => if String.eqb k k' then Some v else lookup k d'
  end.

(** [v[k]] for a string [k]. *)
Definition getitem (v : json) (k : string) : outcome json :=
  match v with
  | JObj d =>
      match lookup k d with
      | Some x => Returned x
      | None => Raised (KeyError k)
      end
  | _ => Raised TypeError
  end.

(** [v.get(k)], which is [v.get(k, None)]. *)
Definition get (v : json) (k : string) : outcome json :=
  match v with
  | JObj d =>
      match lookup k d with
      | Some x => Returned x
      | None => Returned JNull
      end
  | _ => Raised AttributeError
  end.

Fixpoint chars (s : string) : list json :=
  match s with
  | EmptyString => []
  | String c s' => JStr (String c EmptyString) :: chars s'
  end.

(** The items [for x in v] goes through: the elements of a list, the keys
    of a dict, the characters of a string. *)
Definition iter (v : json) : outcome (list json) :=
  match v with
  | JArr l => Returned l
  | JObj d => Returned (map (fun kv => JStr (fst kv)) d)
  | JStr s => Returned (chars s)
  | _ => Raised TypeError
  end.

(** [v == s] for a string [s]. *)
Definition eq_str (v : json) (s : string) : bool :=
  match v with
  | JStr t => String.eqb t s
  | _ => false
  end.

(** [isinstance(v, dict)] *)
Definition is_dict (v : json) : bool :=
  match v with
  | JObj _ => true
  | _ => false
  end.

(** [next(filter(p, l))] on the items [l] of an iterable. *)
Fixpoint next_filter (p : json -> outcome bool) (l : list json) : outcome json :=
  match l with
  | [] => Raised StopIteration
  | x :: l' =>
      let? b := p x in
      if b then Returned x else next_filter p l'
  end.

(** [d[k] = v] on the items of a dict: a key already there keeps its place. *)
Fixpoint setitem {K V : Type} (eqb : K -> K -> bool) (k : K) (v : V)
  (d : list (K * V)) : list (K * V) :=
  match d with
  | [] => [(k, v)]
  | (k', v') :: d' =>
      if eqb k k' then (k, v) :: d' else (k', v') :: setitem eqb k v d'
  end.

(** [d.get(k)] on the items of a dict with keys of any kind. *)
Fixpoint find {K V : Type} (eqb : K -> K -> bool) (k : K) (d : list (K * V))
  : option V :=
  match d with
  | [] => None
  | (k', v) :: d' => if eqb k k' then Some v else find eqb k d'
  end.

(** [d[k] = v] for an item [(k, v)]. *)
Definition update {K V : Type} (eqb : K -> K -> bool) (d : list (K * V))
  (e : K * V) : list (K * V) :=
  setitem eqb (fst e) (snd e) d.

Section Format.

(** [repr] of a list or a dict, which the program never needs spelled out. *)
Variable repr : json -> string.

(** [str(v)], what an f-string puts for [{v}]. *)
Definition str (v : json) : string :=
  match v with
  | JNull => "None"
  | JBool true => "True"
  | JBool false => "False"
  | JNum n => Str.of_Z n
  | JStr s => s
  | _ => repr v
  end.

End Format.

End Py.

(** ** Parsed HTML, as BeautifulSoup shows it *)

Inductive node : Type :=
| Text (s : string)
| Element (name : string) (attrs : list (string * string)) (children : list node).

Module Soup.

(** [tag.string]: the text of a tag whose only child is a text node, or
    whose only child is a tag that has one; [None] otherwise. *)
Fixpoint string_of (n : node) : option string :=
  match n with
  | Text s => Some s
  | Element _ _ [c] => string_of c
  | Element _ _ _ => None
  end.

(** [tag.get(k)] *)
Definition get (n : node) (k : string) : option string :=
  match n with
  | Text _ => None
  | Element _ attrs _ => Py.lookup k attrs
  end.

Definition has_name (name : string) (n : node) : bool :=
  match n with
  | Text _ => false
  | Element name' _ _ => String.eqb name' name
  end.

(** A node and all the nodes below it, in document order. *)
Fixpoint descendants (n : node) : list node :=
  n :: match n with
       | Text _ => []
       | Element _ _ cs => flat_map descendants cs
       end.

(** [soup.find_all(name)] on the top-level nodes of a document. *)
Definition find_all (name : string) (soup : list node) : list node :=
  filter (has_name name) (flat_map descendants soup).

End Soup.

(** ** Regular expressions, as far as the program uses [re.search] *)

Module Re.

(** The patterns are sequences of literals and of captured, greedy
    repetitions of a character class: a starred dot, or a starred class of
    everything but the quote, each in its own group. *)
Inductive item : Type :=
| Lit (s : string)
| GroupStar (cls : ascii -> bool).

Fixpoint strip_prefix (p s : string) : option string :=
  match p, s with
  | EmptyString, _ => Some s
  | String a p', String b s' => if Ascii.eqb a b then strip_prefix p' s' else None
  | String _ _, EmptyString => None
  end.

(** A match of the pattern at the start of [s], with its groups.  The
    repetition takes as many characters as it can and gives them back one
    at a time while the rest of the pattern fails. *)
Fixpoint match_here (p : list item) (s : string) : option (list string) :=
  match p with
  | [] => Some []
  | Lit l :: p' =>
      match strip_prefix l s with
      | Some s' => match_here p' s'
      | None => None
      end
  | GroupStar cls :: p' =>
      (fix star (s : string) : option (list string) :=
         let stop := option_map (cons EmptyString) (match_here p' s) in
         match s with
         | EmptyString => stop
         | String c s' =>
             if cls c
             then match star s' with
                  | Some (g :: gs) => Some (String c g :: gs)
                  | _ => stop
                  end
             else stop
         end) s
  end.

(** [re.search(p, s)]: the match at the leftmost position that has one. *)
Fixpoint search (p : list item) (s : string) : option (list string) :=
  match match_here p s with
  | Some gs => Some gs
  | None =>
      match s with
      | EmptyString => None
      | String _ s' => search p s'
      end
  end.

(** [match.group(1)] *)
Definition group1 (gs : list string) : string := nth 0 gs EmptyString.

Definition newline : ascii := "010"%char.

(** The dot: any character but the newline. *)
Definition dot (c : ascii) : bool := negb (Ascii.eqb c newline).

(** Any character but the single quote. *)
Definition not_quote (c : ascii) : bool := negb (Ascii.eqb c "'"%char).

End Re.

(** ** The transport and the monad of the methods *)

Record request : Type := { url : string; auth : option (string * string) }.

(** A response of [requests.get]: its status, its body, and what the
    decoders outside this program make of the body, [Response.json()]
    ([None] when the body is not JSON) and the lxml parse of
    [BeautifulSoup]. *)
Record response : Type := {
  status_code : Z;
  text : string;
  json_body : option json;
  html : list node
}.

(** The network: what it answers to a request, given the requests before. *)
Definition transport : Type := list request -> request -> outcome response.

(** A method reads the transport and extends the log of requests sent. *)
Definition Net (A : Type) : Type :=
  transport -> list request -> outcome A * list request.

Definition ret {A : Type} (a : A) : Net A := fun _ log => (Returned a, log).

Definition raise {A : Type} (e : exception) : Net A := fun _ log => (Raised e, log).

Definition bind {A B : Type} (c : Net A) (k : A -> Net B) : Net B :=
  fun t log =>
    match c t log with
    | (Raised e, log') => (Raised e, log')
    | (Returned a, log') => k a t log'
    end.

Notation "x <- c ;; k" := (bind c (fun x => k))
  (at level 61, c at next level, right associativity).

Definition lift {A : Type} (c : outcome A) : Net A := fun _ log => (c, log).

(** [try: c  except Exception as err: h(err)] *)
Definition try_except {A : Type} (c : Net A) (h : exception -> Net A) : Net A :=
  fun t log =>
    match c t log with
    | (Raised e, log') => h e t log'
    | (Returned a, log') => (Returned a, log')
    end.

(** [requests.get(url, auth=auth)] *)
Definition requests_get (u : string) (a : option (string * string)) : Net response :=
  fun t log =>
    let req := {| url := u; auth := a |} in
    (t log req, (log ++ [req])%list).

(** [r.raise_for_status()] of the requests library: an [HTTPError] for the
    client and server error statuses, 400 to 599, and nothing otherwise. *)
Definition raise_for_status (r : response) : Net unit :=
  if ((400 <=? status_code r) && (status_code r <? 600))%Z
  then raise (HTTPError (status_code r))
  else ret tt.

(** [r.json()] *)
Definition response_json (r : response) : Net json :=
  match json_body r with
  | Some j => ret j
  | None => raise JSONDecodeError
  end.

Module RefType.

Inductive t : Type := tags | commits | releases.

Definition eqb (a b : t) : bool :=
  match a, b with
  | tags, tags | commits, commits | releases, releases => true
  | _, _ => false
  end.

End RefType.

(** ** class GithubAPI *)

Module GithubAPI.

Record t : Type := {
  upstream : string;
  upstream_repo : string;
  auth : option (string * string)
}.

(** [__init__] *)
Definition init (upstream0 : string) (auth0 : option (string * string)) : Net t :=
  let self_upstream := Str.strip "/" upstream0 in
  let self_upstream_repo :=
    Str.strip "/" (Str.replace "https://github.com/" "" upstream0) in
  if Nat.eqb (List.length (Str.split "/" self_upstream_repo)) 2
  then ret {| upstream := self_upstream;
              upstream_repo := self_upstream_repo;
              auth := auth0 |}
  else raise (AssertionError
                (Some ("'" ++ upstream0 ++ "' doesn't seem to be a github repository ?"))).

Definition internal_api (self : t) (uri : string) : Net json :=
  r <- requests_get ("https://api.github.com/" ++ uri) (auth self) ;;
  _ <- raise_for_status r ;;
  response_json r.

Definition tags (self : t) : Net json :=
  internal_api self ("repos/" ++ upstream_repo self ++ "/tags").

Definition commits (self : t) : Net json :=
  internal_api self ("repos/" ++ upstream_repo self ++ "/commits").

Definition tip_of_branch (self : t) (branch : string) : Net json :=
  b <- internal_api self ("repos/" ++ upstream_repo self ++ "/branches/" ++ branch) ;;
  lift (Py.getitem b "commit").

Definition releases (self : t) : Net json :=
  internal_api self ("repos/" ++ upstream_repo self ++ "/releases?per_page=100").

Definition url_for_ref (self : t) (ref : string) (ref_type : RefType.t) : Net string :=
  if RefType.eqb ref_type RefType.tags || RefType.eqb ref_type RefType.releases
  then ret (upstream self ++ "/archive/refs/tags/" ++ ref ++ ".tar.gz")
  else if RefType.eqb ref_type RefType.commits
  then ret (upstream self ++ "/archive/" ++ ref ++ ".tar.gz")
  else raise NotImplementedError.

Definition changelog_for_ref (self : t) (new_ref old_ref : string)
  (ref_type : RefType.t) : Net string :=
  if RefType.eqb ref_type RefType.commits
  then ret (upstream self ++ "/compare/" ++ old_ref ++ "..." ++ new_ref)
  else ret (upstream self ++ "/releases/tag/" ++ new_ref).

End GithubAPI.

(** ** class GitlabAPI *)

Module GitlabAPI.

(** [project_id] is whatever the forge gave as the project's ["id"]. *)
Record t : Type := {
  forge_root : string;
  project_path : string;
  project_id : json
}.

Definition pattern : list Re.item :=
  [Re.Lit "const url = `"; Re.GroupStar Re.dot; Re.Lit "/api/graphql`"].

Definition get_forge_root (project_url : string) : Net string :=
  r <- requests_get project_url None ;;
  _ <- raise_for_status r ;;
  match Re.search pattern (text r) with
  | None => raise (AssertionError None)
  | Some groups => ret (Re.group1 groups)
  end.

Definition internal_api (self : t) (uri : string) : Net json :=
  r <- requests_get (forge_root self ++ "/api/v4/" ++ uri) None ;;
  _ <- raise_for_status r ;;
  response_json r.

Definition find_project_id (self : t) (project : string) : Net json :=
  project <-
    try_except
      (internal_api self ("projects/" ++ Str.replace "/" "%2F" project))
      (fun err =>
         match err with
         | HTTPError status =>
             if negb (status =? 404)%Z then raise err
             else
               let name := Str.last_item (Str.split "/" (project_path self)) in
               projects <- internal_api self ("projects?search=" ++ name) ;;
               items <- lift (Py.iter projects) ;;
               lift (Py.next_filter
                       (fun x =>
                          let? p := Py.get x "path_with_namespace" in
                          Returned (Py.eq_str p (project_path self)))
                       items)
         | _ => raise err
         end) ;;
  if Py.is_dict project
  then lift (Py.get project "id")
  else raise (AssertionError None).

(** [__init__]; [find_project_id] runs on the object whose [project_id] is
    not set yet. *)
Definition init (upstream : string) : Net t :=
  root <- get_forge_root upstream ;;
  let self_forge_root := Str.rstrip "/" root in
  let self_project_path := Str.strip "/" (Str.replace self_forge_root "" upstream) in
  let self := {| forge_root := self_forge_root;
                 project_path := self_project_path;
                 project_id := JNull |} in
  id <- find_project_id self self_project_path ;;
  ret {| forge_root := self_forge_root;
         project_path := self_project_path;
         project_id := id |}.

Section Methods.

Variable repr : json -> string.

Definition tags (self : t) : Net json :=
  internal_api self ("projects/" ++ Py.str repr (project_id self) ++ "/repository/tags").

(** The body of the comprehension of [commits], also the dict that
    [tip_of_branch] returns. *)
Definition remap_commit (commit : json) : outcome json :=
  let? sha := Py.getitem commit "id" in
  let? date := Py.getitem commit "committed_date" in
  Returned (JObj [("sha", sha);
                  ("commit", JObj [("author", JObj [("date", date)])])]).

Definition commits (self : t) : Net json :=
  native <- internal_api self
              ("projects/" ++ Py.str repr (project_id self) ++ "/repository/commits") ;;
  lift (let? items := Py.iter native in
        let? l := omap remap_commit items in
        Returned (JArr l)).

Definition tip_of_branch (self : t) (branch : string) : Net json :=
  b <- internal_api self
         ("projects/" ++ Py.str repr (project_id self) ++ "/repository/branches/" ++ branch) ;;
  lift (let? commit := Py.getitem b "commit" in remap_commit commit).

(** The body of the comprehension over [release["assets"]["links"]]. *)
Definition remap_link (asset : json) : outcome json :=
  let? name := Py.getitem asset "name" in
  let? u := Py.getitem asset "direct_asset_url" in
  Returned (JObj [("name", name); ("browser_download_url", u)]).

(** The dict appended for an item of [release["assets"]["sources"]]. *)
Definition remap_source (source : json) : outcome json :=
  let? format := Py.getitem source "format" in
  let? u := Py.getitem source "url" in
  Returned (JObj [("name", JStr ("source." ++ Py.str repr format));
                  ("browser_download_url", u)]).

(** The body of the loop of [releases]: the dict [r] once the sources have
    been appended to [r["assets"]]. *)
Definition remap_release (release : json) : outcome json :=
  let? tag_name := Py.getitem release "tag_name" in
  let? links0 := Py.getitem release "_links" in
  let? html_url := Py.getitem links0 "self" in
  let? assets0 := Py.getitem release "assets" in
  let? links := Py.getitem assets0 "links" in
  let? link_items := Py.iter links in
  let? assets := omap remap_link link_items in
  let? assets1 := Py.getitem release "assets" in
  let? sources := Py.getitem assets1 "sources" in
  let? source_items := Py.iter sources in
  let? appended := omap remap_source source_items in
  Returned (JObj [("tag_name", tag_name);
                  ("prerelease", JBool false);
                  ("draft", JBool false);
                  ("html_url", html_url);
                  ("assets", JArr (assets ++ appended)%list)]).

Definition releases (self : t) : Net json :=
  native <- internal_api self
              ("projects/" ++ Py.str repr (project_id self) ++ "/releases") ;;
  lift (let? items := Py.iter native in
        let? retval := omap remap_release items in
        Returned (JArr retval)).

End Methods.

Definition url_for_ref (self : t) (ref : string) (_ : RefType.t) : Net string :=
  let name := Str.last_item (Str.split "/" (project_path self)) in
  let clean_ref := Str.replace "/" "-" ref in
  ret (forge_root self ++ "/" ++ project_path self ++ "/-/archive/" ++ ref
       ++ "/" ++ name ++ "-" ++ clean_ref ++ ".tar.bz2").

Definition changelog_for_ref (self : t) (new_ref old_ref : string)
  (ref_type : RefType.t) : Net string :=
  if RefType.eqb ref_type RefType.commits
  then ret (forge_root self ++ "/" ++ project_path self ++ "/-/compare/"
            ++ old_ref ++ "..." ++ new_ref)
  else if RefType.eqb ref_type RefType.tags
  then ret (forge_root self ++ "/" ++ project_path self ++ "/-/tags/" ++ new_ref)
  else if RefType.eqb ref_type RefType.releases
  then ret (forge_root self ++ "/" ++ project_path self ++ "/-/releases/" ++ new_ref)
  else raise NotImplementedError.

End GitlabAPI.

(** ** class GiteaForgejoAPI *)

Module GiteaForgejoAPI.

Record t : Type := {
  forge_root : string;
  project_path : string
}.

Definition pattern : list Re.item :=
  [Re.Lit "appUrl: '"; Re.GroupStar Re.not_quote; Re.Lit "',"].

Definition get_forge_root (project_url : string) : Net string :=
  r <- requests_get project_url None ;;
  _ <- raise_for_status r ;;
  match Re.search pattern (text r) with
  | None => raise (AssertionError None)
  | Some groups => ret (Str.replace "\" "" (Re.group1 groups))
  end.

(** [__init__] *)
Definition init (upstream : string) : Net t :=
  root <- get_forge_root upstream ;;
  let self_forge_root := Str.rstrip "/" root in
  ret {| forge_root := self_forge_root;
         project_path := Str.lstrip "/" (Str.replace self_forge_root "" upstream) |}.

Definition internal_api (self : t) (uri : string) : Net json :=
  r <- requests_get (forge_root self ++ "/api/v1/" ++ uri) None ;;
  _ <- raise_for_status r ;;
  response_json r.

Definition tags (self : t) : Net json :=
  internal_api self ("repos/" ++ project_path self ++ "/tags").

Definition commits (self : t) : Net json :=
  internal_api self ("repos/" ++ project_path self ++ "/commits").

Definition tip_of_branch (self : t) (branch : string) : Net json :=
  b <- internal_api self ("repos/" ++ project_path self ++ "/branches/" ++ branch) ;;
  lift (let? commit := Py.getitem b "commit" in
        let? sha := Py.getitem commit "id" in
        let? date := Py.getitem commit "timestamp" in
        Returned (JObj [("sha", sha);
                        ("commit", JObj [("author", JObj [("date", date)])])])).

Definition releases (self : t) : Net json :=
  internal_api self ("repos/" ++ project_path self ++ "/releases").

Definition url_for_ref (self : t) (ref : string) (_ : RefType.t) : Net string :=
  ret (forge_root self ++ "/" ++ project_path self ++ "/archive/" ++ ref ++ ".tar.gz").

Definition changelog_for_ref (self : t) (new_ref old_ref : string)
  (ref_type : RefType.t) : Net string :=
  if RefType.eqb ref_type RefType.commits
  then ret (forge_root self ++ "/" ++ project_path self ++ "/compare/"
            ++ old_ref ++ "..." ++ new_ref)
  else ret (forge_root self ++ "/" ++ project_path self ++ "/releases/tag/" ++ new_ref).

End GiteaForgejoAPI.

(** ** class DownloadPageAPI *)

Module DownloadPageAPI.

Record t : Type := { web_page : string }.

(** [__init__] *)
Definition init (upstream : string) : Net t := ret {| web_page := upstream |}.

(** The keys of the dict of links: [link.string], which may be [None]. *)
Definition key_eqb (a b : option string) : bool :=
  match a, b with
  | None, None => true
  | Some x, Some y => String.eqb x y
  | _, _ => false
  end.

Section Links.

(** [urllib.parse.urljoin(base, url)] of the standard library, which
    returns the resolved URL or raises ([ValueError] on a target that is no
    URL); [url] is [None] for a tag without the attribute. *)
Variable urljoin : string -> option string -> outcome string.

(** The dict that the comprehension builds from the tags found, item after
    item; an exception of [urljoin] ends it. *)
Fixpoint link_dict_from (base : string) (d : list (option string * string))
  (links : list node) : outcome (list (option string * string)) :=
  match links with
  | [] => Returned d
  | link :: links' =>
      let? target := urljoin base (Soup.get link "href") in
      link_dict_from base (Py.setitem key_eqb (Soup.string_of link) target d) links'
  end.

Definition link_dict (base : string) (links : list node)
  : outcome (list (option string * string)) :=
  link_dict_from base [] links.

Definition get_web_page_links (self : t) : Net (list (option string * string)) :=
  r <- requests_get (web_page self) None ;;
  _ <- raise_for_status r ;;
  let soup := html r in
  lift (link_dict (web_page self) (Soup.find_all "a" soup)).

End Links.

End DownloadPageAPI.

(** ** The adapters behind one interface *)

Module Forge.

Inductive adapter : Type :=
| Github (self : GithubAPI.t)
| Gitlab (self : GitlabAPI.t)
| GiteaForgejo (self : GiteaForgejoAPI.t).

Definition url_for_ref (a : adapter) (ref : string) (kind : RefType.t) : Net string :=
  match a with
  | Github self => GithubAPI.url_for_ref self ref kind
  | Gitlab self => GitlabAPI.url_for_ref self ref kind
  | GiteaForgejo self => GiteaForgejoAPI.url_for_ref self ref kind
  end.

Section Operations.

Variable repr : json -> string.
Variable urljoin : string -> option string -> outcome string.

Definition tags (a : adapter) : Net json :=
  match a with
  | Github self => GithubAPI.tags self
  | Gitlab self => GitlabAPI.tags repr self
  | GiteaForgejo self => GiteaForgejoAPI.tags self
  end.

Definition commits (a : adapter) : Net json :=
  match a with
  | Github self => GithubAPI.commits self
  | Gitlab self => GitlabAPI.commits repr self
  | GiteaForgejo self => GiteaForgejoAPI.commits self
  end.

Definition tip_of_branch (a : adapter) (branch : string) : Net json :=
  match a with
  | Github self => GithubAPI.tip_of_branch self branch
  | Gitlab self => GitlabAPI.tip_of_branch repr self branch
  | GiteaForgejo self => GiteaForgejoAPI.tip_of_branch self branch
  end.

Definition releases (a : adapter) : Net json :=
  match a with
  | Github self => GithubAPI.releases self
  | Gitlab self => GitlabAPI.releases repr self
  | GiteaForgejo self => GiteaForgejoAPI.releases self
  end.

(** The operations that send a request. *)
Inductive operation : Type :=
| Tags (a : adapter)
| Commits (a : adapter)
| TipOfBranch (a : adapter) (branch : string)
| Releases (a : adapter)
| GitlabForgeRoot (project_url : string)
| GiteaForgejoForgeRoot (project_url : string)
| WebPageLinks (self : DownloadPageAPI.t).

Inductive value : Type :=
| Document (j : json)
| Root (s : string)
| Links (d : list (option string * string)).

Definition returning {A : Type} (f : A -> value) (c : Net A) : Net value :=
  x <- c ;; ret (f x).

Definition perform (op : operation) : Net value :=
  match op with
  | Tags a => returning Document (tags a)
  | Commits a => returning Document (commits a)
  | TipOfBranch a branch => returning Document (tip_of_branch a branch)
  | Releases a => returning Document (releases a)
  | GitlabForgeRoot u => returning Root (GitlabAPI.get_forge_root u)
  | GiteaForgejoForgeRoot u => returning Root (GiteaForgejoAPI.get_forge_root u)
  | WebPageLinks self => returning Links (DownloadPageAPI.get_web_page_links urljoin self)
  end.

Definition api_request (a : adapter) (github_uri gitlab_uri gitea_uri : string)
  : request :=
  match a with
  | Github self =>
      {| url := "https://api.github.com/" ++ github_uri; auth := GithubAPI.auth self |}
  | Gitlab self =>
      {| url := GitlabAPI.forge_root self ++ "/api/v4/" ++ gitlab_uri; auth := None |}
  | GiteaForgejo self =>
      {| url := GiteaForgejoAPI.forge_root self ++ "/api/v1/" ++ gitea_uri; auth := None |}
  end.

Definition project (a : adapter) : string :=
  match a with
  | Github self => "repos/" ++ GithubAPI.upstream_repo self
  | Gitlab self => "projects/" ++ Py.str repr (GitlabAPI.project_id self)
  | GiteaForgejo self => "repos/" ++ GiteaForgejoAPI.project_path self
  end.

(** The request that an operation sends first. *)
Definition request_of (op : operation) : request :=
  match op with
  | Tags a =>
      api_request a (project a ++ "/tags") (project a ++ "/repository/tags")
        (project a ++ "/tags")
  | Commits a =>
      api_request a (project a ++ "/commits") (project a ++ "/repository/commits")
        (project a ++ "/commits")
  | TipOfBranch a branch =>
      api_request a (project a ++ "/branches/" ++ branch)
        (project a ++ "/repository/branches/" ++ branch)
        (project a ++ "/branches/" ++ branch)
  | Releases a =>
      api_request a (project a ++ "/releases?per_page=100") (project a ++ "/releases")
        (project a ++ "/releases")
  | GitlabForgeRoot u => {| url := u; auth := None |}
  | GiteaForgejoForgeRoot u => {| url := u; auth := None |}
  | WebPageLinks self => {| url := DownloadPageAPI.web_page self; auth := None |}
  end.

End Operations.

End Forge.

(** ** Vocabulary of the properties *)

(** The number of slashes in [s]. *)
Fixpoint slashes (s : string) : nat :=
  match s with
  | EmptyString => 0
  | String c s' => (if Ascii.eqb c "/" then 1 else 0) + slashes s'
  end.

(** The strings that are an owner and a repository name around one slash. *)
Definition owner_repo_pair (s : string) : Prop :=
  exists owner name : string,
    s = owner ++ "/" ++ name /\
    owner <> "" /\ name <> "" /\
    Str.mem "/" owner = false /\ Str.mem "/" name = false.

(** What [requests.get], [raise_for_status] and [json] make of the answer
    of the transport. *)
Definition decoded (answer : outcome response) : outcome json :=
  match answer with
  | Raised e => Raised e
  | Returned r =>
      if ((400 <=? status_code r) && (status_code r <? 600))%Z
      then Raised (HTTPError (status_code r))
      else match json_body r with
           | Some j => Returned j
           | None => Raised JSONDecodeError
           end
  end.

(** A native GitLab commit [native] and the record made of it. *)
Definition gitlab_commit_remapped (native out : json) : Prop :=
  exists id date : json,
    Py.getitem native "id" = Returned id /\
    Py.getitem native "committed_date" = Returned date /\
    out = JObj [("sha", id); ("commit", JObj [("author", JObj [("date", date)])])].

(** A native Gitea or Forgejo commit [native] and the record made of it. *)
Definition gitea_commit_remapped (native out : json) : Prop :=
  exists id date : json,
    Py.getitem native "id" = Returned id /\
    Py.getitem native "timestamp" = Returned date /\
    out = JObj [("sha", id); ("commit", JObj [("author", JObj [("date", date)])])].

(** An entry of the native [assets.links] and the asset made of it. *)
Definition link_remapped (native out : json) : Prop :=
  exists name u : json,
    Py.getitem native "name" = Returned name /\
    Py.getitem native "direct_asset_url" = Returned u /\
    out = JObj [("name", name); ("browser_download_url", u)].

(** An entry of the native [assets.sources] and the asset made of it. *)
Definition source_remapped (repr : json -> string) (native out : json) : Prop :=
  exists format u : json,
    Py.getitem native "format" = Returned format /\
    Py.getitem native "url" = Returned u /\
    out = JObj [("name", JStr ("source." ++ Py.str repr format));
                ("browser_download_url", u)].

(** A native GitLab release and the record made of it: the assets are those
    of the links, in order, followed by those of the sources, in order. *)
Definition release_remapped (repr : json -> string) (native out : json) : Prop :=
  exists (tag_name links0 html_url assets0 links sources : json)
         (link_items source_items from_links from_sources : list json),
    Py.getitem native "tag_name" = Returned tag_name /\
    Py.getitem native "_links" = Returned links0 /\
    Py.getitem links0 "self" = Returned html_url /\
    Py.getitem native "assets" = Returned assets0 /\
    Py.getitem assets0 "links" = Returned links /\
    Py.iter links = Returned link_items /\
    Forall2 link_remapped link_items from_links /\
    Py.getitem assets0 "sources" = Returned sources /\
    Py.iter sources = Returned source_items /\
    Forall2 (source_remapped repr) source_items from_sources /\
    out = JObj [("tag_name", tag_name);
                ("prerelease", JBool false);
                ("draft", JBool false);
                ("html_url", html_url);
                ("assets", JArr (from_links ++ from_sources)%list)].

(** The normalized shape of a commit, [{sha, commit: {author: {date}}}]. *)
Definition commit_info_shape (j : json) : Prop :=
  exists sha date : json,
    j = JObj [("sha", sha); ("commit", JObj [("author", JObj [("date", date)])])].

(** [x["path_with_namespace"] == path] for a project [x] of a search
    result, [None] standing for a missing key. *)
Definition has_path (path : string) (x : json) : outcome bool :=
  let? p := Py.get x "path_with_namespace" in
  Returned (Py.eq_str p path).

(** The request of the direct lookup of a project. *)
Definition lookup_request (self : GitlabAPI.t) (project : string) : request :=
  {| url := GitlabAPI.forge_root self ++ "/api/v4/projects/"
            ++ Str.replace "/" "%2F" project;
     auth := None |}.

(** The request of the search by the last segment of the project path. *)
Definition search_request (self : GitlabAPI.t) : request :=
  {| url := GitlabAPI.forge_root self ++ "/api/v4/projects?search="
            ++ Str.last_item (Str.split "/" (GitlabAPI.project_path self));
     auth := None |}.

(** What [find_project_id] makes of the project found. *)
Definition id_of (project : json) : outcome json :=
  if Py.is_dict project then Py.get project "id" else Raised (AssertionError None).

(** What [requests.get] and [raise_for_status] make of the answer of the
    transport. *)
Definition fetched (answer : outcome response) : outcome response :=
  match answer with
  | Raised e => Raised e
  | Returned r =>
      if ((400 <=? status_code r) && (status_code r <? 600))%Z
      then Raised (HTTPError (status_code r))
      else Returned r
  end.

(** The request for a page. *)
Definition page_request (u : string) : request := {| url := u; auth := None |}.

(** All the characters of [s] are in the class. *)
Fixpoint every (cls : ascii -> bool) (s : string) : bool :=
  match s with
  | EmptyString => true
  | String c s' => cls c && every cls s'
  end.

(** The page holds, after [before], the literal [opening], a run [g] of
    characters of the class and the literal [closing]. *)
Definition marked (opening : string) (cls : ascii -> bool) (closing : string)
  (page before g : string) : Prop :=
  exists rest : string,
    page = before ++ opening ++ g ++ closing ++ rest /\ every cls g = true.

(** [g] is the run of the leftmost occurrence of the marker in the page,
    and the longest run that this occurrence admits. *)
Definition leftmost_longest (opening : string) (cls : ascii -> bool)
  (closing : string) (page g : string) : Prop :=
  exists before : string,
    marked opening cls closing page before g /\
    forall before' g' : string,
      marked opening cls closing page before' g' ->
      String.length before <= String.length before' /\
      (String.length before' = String.length before ->
       String.length g' <= String.length g).

(** The item that the comprehension computes for a tag, when [urljoin]
    returns. *)
Definition link_entry (urljoin : string -> option string -> outcome string)
  (base : string) (link : node) : outcome (option string * string) :=
  let? target := urljoin base (Soup.get link "href") in
  Returned (Soup.string_of link, target).

(** [s.removeprefix(p)]: the reduction of an upstream as the specification
    words it, the prefix taken off the front and nowhere else. *)
Definition removeprefix (p s : string) : string :=
  match Re.strip_prefix p s with
  | Some rest => rest
  | None => s
  end.

(** ** Fixtures *)

Module Fixture.

Definition repr (v : json) : string := "<object>".

(** A response with a status and a JSON body. *)
Definition json_response (status : Z) (j : json) : response :=
  {| status_code := status; text := ""; json_body := Some j; html := [] |}.

(** A response with a status and a page. *)
Definition page_response (status : Z) (body : string) (soup : list node) : response :=
  {| status_code := status; text := body; json_body := None; html := soup |}.

(** The transport that gives the same answer to every request. *)
Definition always (r : response) : transport := fun _ _ => Returned r.

Definition github : GithubAPI.t :=
  {| GithubAPI.upstream := "https://github.com/owner/repo";
     GithubAPI.upstream_repo := "owner/repo";
     GithubAPI.auth := None |}.

Definition gitlab : GitlabAPI.t :=
  {| GitlabAPI.forge_root := "https://gitlab.example";
     GitlabAPI.project_path := "group/project";
     GitlabAPI.project_id := JNum 42 |}.

Definition gitea : GiteaForgejoAPI.t :=
  {| GiteaForgejoAPI.forge_root := "https://gitea.example";
     GiteaForgejoAPI.project_path := "owner/repo" |}.

Definition link : json :=
  JObj [("id", JNum 1); ("name", JStr "a.zip");
        ("url", JStr "http://x/a.zip");
        ("direct_asset_url", JStr "http://x/direct/a.zip")].

Definition source : json :=
  JObj [("format", JStr "zip"); ("url", JStr "http://x/archive.zip")].

(** A native release that the forge marks as upcoming, with fields named
    like the normalized ones set to true. *)
Definition native_release : json :=
  JObj [("name", JStr "Version 1.0");
        ("tag_name", JStr "v1.0");
        ("upcoming_release", JBool true);
        ("prerelease", JBool true);
        ("draft", JBool true);
        ("assets", JObj [("count", JNum 2);
                         ("sources", JArr [source]);
                         ("links", JArr [link])]);
        ("_links", JObj [("self", JStr "https://gitlab.example/group/project/-/releases/v1.0")])].

Definition release : json :=
  JObj [("tag_name", JStr "v1.0");
        ("prerelease", JBool false);
        ("draft", JBool false);
        ("html_url", JStr "https://gitlab.example/group/project/-/releases/v1.0");
        ("assets",
         JArr [JObj [("name", JStr "a.zip");
                     ("browser_download_url", JStr "http://x/direct/a.zip")];
               JObj [("name", JStr "source.zip");
                     ("browser_download_url", JStr "http://x/archive.zip")]])].

(** A commit as the Gitea and Forgejo branch payload names its fields. *)
Definition gitea_native_commit : json :=
  JObj [("id", JStr "deadbeef"); ("timestamp", JStr "2024-06-01T00:00:00Z")].

(** The GitLab adapter while [__init__] resolves its project id. *)
Definition gitlab_unresolved : GitlabAPI.t :=
  {| GitlabAPI.forge_root := "https://gitlab.example";
     GitlabAPI.project_path := "group/project";
     GitlabAPI.project_id := JNull |}.

Definition other_project : json :=
  JObj [("id", JNum 7); ("path_with_namespace", JStr "fork/project")].

Definition wanted_project : json :=
  JObj [("id", JNum 42); ("path_with_namespace", JStr "group/project")].

(** A forge whose direct lookup answers 404 and whose search works. *)
Definition buggy_gitlab : transport :=
  fun _ req =>
    if String.eqb (url req) "https://gitlab.example/api/v4/projects/group%2Fproject"
    then Returned (json_response 404 (JObj [("message", JStr "404 Project Not Found")]))
    else Returned (json_response 200 (JArr [other_project; wanted_project])).

(** The forge of [buggy_gitlab], answering the project's URL with its
    page. *)
Definition gitlab_forge : transport :=
  fun log req =>
    if String.eqb (url req) "https://gitlab.example/group/project"
    then Returned
           (page_response 200
              "<script>const url = `https://gitlab.example/api/graphql`</script>" [])
    else buggy_gitlab log req.

(** A GitLab project page. *)
Definition gitlab_page : response :=
  page_response 200
    "<script>const url = `https://gitlab.example/api/graphql`</script>" [].

(** A GitLab project page whose script escapes the slashes of the URL. *)
Definition gitlab_page_escaped : response :=
  page_response 200
    "<script>const url = `https:\/\/gitlab.example/api/graphql`</script>" [].

(** A Gitea project page. *)
Definition gitea_page : response :=
  page_response 200
    "<script>window.config = { appUrl: 'https:\/\/gitea.example\/', };</script>" [].

(** The characters of [s] before the first [c]. *)
Fixpoint before_char (c : ascii) (s : string) : string :=
  match s with
  | EmptyString => EmptyString
  | String d s' => if Ascii.eqb d c then EmptyString else String d (before_char c s')
  end.

(** [s[n:]] *)
Fixpoint drop (n : nat) (s : string) : string :=
  match n, s with
  | O, _ => s
  | S n', String _ s' => drop n' s'
  | S _, EmptyString => EmptyString
  end.

(** The scheme of an absolute URL, "http" of "http://h/dir/". *)
Definition scheme (base : string) : string := before_char ":" base.

(** The scheme and the authority, "http://h" of "http://h/dir/". *)
Definition origin (base : string) : string :=
  scheme base ++ "://" ++ before_char "/" (drop (String.length (scheme base) + 3) base).

(** The URL up to its last slash, "http://h/dir/" of "http://h/dir/page". *)
Definition directory (base : string) : string :=
  substring 0
    (String.length base - String.length (Str.last_item (Str.split "/" base))) base.

(** The authority of a network path, "h" of "//h/x?q". *)
Definition authority (target : string) : string :=
  before_char "#" (before_char "?" (before_char "/" (drop 2 target))).

(** A letter. *)
Definition is_alpha (c : ascii) : bool :=
  let n := nat_of_ascii c in
  (Nat.leb 65 n && Nat.leb n 90) || (Nat.leb 97 n && Nat.leb n 122).

(** A character of a scheme: a letter, a digit, or one of "+-.". *)
Definition is_scheme_char (c : ascii) : bool :=
  let n := nat_of_ascii c in
  is_alpha c || (Nat.leb 48 n && Nat.leb n 57) || Str.mem c "+-.".

(** The target begins with a scheme and a colon, as "https:" or "mailto:". *)
Definition has_scheme (target : string) : bool :=
  match target with
  | EmptyString => false
  | String c _ =>
      is_alpha c && Str.mem ":" target && every is_scheme_char (before_char ":" target)
  end.

(** A resolver for the fixtures, computing what [urljoin] gives on an
    absolute http base without query for the plain targets: none or an empty
    one (the base); a network path (the scheme of the base before it, and
    [ValueError] when its authority has one square bracket without the
    other); an absolute path (after the scheme and authority of the base);
    a URL with an authority or with another scheme than the base (itself);
    and a relative path without dot segments (after the directory of the
    base). *)
Definition urljoin (base : string) (u : option string) : outcome string :=
  match u with
  | None => Returned base
  | Some EmptyString => Returned base
  | Some target =>
      if Str.startswith target "//"
      then if xorb (Str.mem "[" (authority target)) (Str.mem "]" (authority target))
           then Raised ValueError
           else Returned (scheme base ++ ":" ++ target)
      else if Str.startswith target "/"
      then Returned (origin base ++ target)
      else if has_scheme target
      then Returned target
      else Returned (directory base ++ target)
  end.

Definition named_anchor : node :=
  Element "a" [("href", "/x")] [Text "Name"].

(** An anchor around an image, with nothing to read. *)
Definition image_anchor : node :=
  Element "a" [("href", "/y")] [Element "img" [("src", "logo.png")] []].

(** An anchor that is a place in the page, not a link. *)
Definition place_anchor : node :=
  Element "a" [("id", "top")] [Text "Top"].

(** An anchor whose target is no URL. *)
Definition malformed_anchor : node :=
  Element "a" [("href", "//[")] [Text "Broken"].

(** A page with an anchor that [urljoin] refuses. *)
Definition broken_page : response :=
  page_response 200 "<html>...</html>"
    [Element "html" []
       [Element "body" [] [named_anchor; malformed_anchor; place_anchor]]].

(** The page of the specification, with its one anchor. *)
Definition name_page : response :=
  page_response 200 "<a href='/x'>Name</a>" [named_anchor].

Definition download_page : response :=
  page_response 200 "<html>...</html>"
    [Element "html" []
       [Element "body" [] [named_anchor; image_anchor; place_anchor]]].

Definition downloads : DownloadPageAPI.t :=
  {| DownloadPageAPI.web_page := "http://h/dir/" |}.

End Fixture.

(** ** Vocabulary of the further properties *)

(** [changelog_for_ref] behind the one interface. *)
Definition changelog_for_ref_of (a : Forge.adapter) (new_ref old_ref : string)
  (kind : RefType.t) : Net string :=
  match a with
  | Forge.Github self => GithubAPI.changelog_for_ref self new_ref old_ref kind
  | Forge.Gitlab self => GitlabAPI.changelog_for_ref self new_ref old_ref kind
  | Forge.GiteaForgejo self => GiteaForgejoAPI.changelog_for_ref self new_ref old_ref kind
  end.

(** The operations that go through [internal_api]. *)
Definition api_operation (op : Forge.operation) : bool :=
  match op with
  | Forge.Tags _ | Forge.Commits _ | Forge.TipOfBranch _ _ | Forge.Releases _ => true
  | _ => false
  end.

(** The adapter that an operation is called on, when it is a forge's. *)
Definition adapter_of (op : Forge.operation) : option Forge.adapter :=
  match op with
  | Forge.Tags a | Forge.Commits a | Forge.TipOfBranch a _ | Forge.Releases a => Some a
  | _ => None
  end.

(** [s] does not begin with the character [c]. *)
Definition not_first (c : ascii) (s : string) : Prop :=
  forall r : string, s <> String c r.

(** [s] does not end with the character [c]. *)
Definition not_last (c : ascii) (s : string) : Prop :=
  forall x : string, s <> x ++ String c "".

(** * Properties *)

(** ** Strings *)

#[local] Arguments Ascii.eqb : simpl never.
#[local] Arguments Str.replace : simpl never.
#[local] Arguments Str.split : simpl never.

Lemma append_assoc (a b c : string) : (a ++ b) ++ c = a ++ b ++ c.
Proof. induction a as [|d a IH]; simpl; [reflexivity|now rewrite IH]. Qed.

Lemma append_nil_r (a : string) : a ++ "" = a.
Proof. induction a as [|d a IH]; simpl; [reflexivity|now rewrite IH]. Qed.

Lemma mem_app (c : ascii) (a b : string) :
  Str.mem c (a ++ b) = Str.mem c a || Str.mem c b.
Proof.
  induction a as [|d a IH]; simpl; [reflexivity|].
  rewrite IH. now rewrite orb_assoc.
Qed.

Lemma split_not_nil (sep s : string) : Str.split sep s <> [].
Proof. unfold Str.split. destruct (Str.split_from sep 0 s). discriminate. Qed.

Lemma split_slash_cons (c : ascii) (s : string) :
  Str.split "/" (String c s) =
  if Ascii.eqb c "/"
  then EmptyString :: Str.split "/" s
  else match Str.split "/" s with
       | seg :: segs => String c seg :: segs
       | [] => []
       end.
Proof.
  unfold Str.split. simpl.
  destruct (Ascii.eqb c "/"); simpl;
    destruct (Str.split_from "/" 0 s); reflexivity.
Qed.

Lemma split_slash_free (s : string) :
  Str.mem "/" s = false -> Str.split "/" s = [s].
Proof.
  induction s as [|c s IH]; [reflexivity|].
  simpl. intros H. apply orb_false_iff in H as [Hc Hs].
  rewrite split_slash_cons, (Ascii.eqb_sym c "/"), Hc, (IH Hs). reflexivity.
Qed.

Lemma split_slash_free_inv (s seg : string) :
  Str.split "/" s = [seg] -> s = seg.
Proof.
  revert seg. induction s as [|c s IH]; intros seg E.
  - now injection E.
  - rewrite split_slash_cons in E.
    destruct (Ascii.eqb c "/"); [|destruct (Str.split "/" s) as [|x l] eqn:Es].
    + injection E as _ E. now apply split_not_nil in E.
    + discriminate.
    + injection E as <- ->. now rewrite (IH x eq_refl).
Qed.

Lemma last_cons_cons {A : Type} (x y : A) (l : list A) (d : A) :
  last (x :: y :: l) d = last (y :: l) d.
Proof. reflexivity. Qed.

Lemma last_item_split_cons (c : ascii) (s : string) :
  Str.last_item (Str.split "/" (String c s)) =
  match Str.split "/" s with
  | [seg] => if Ascii.eqb c "/" then seg else String c seg
  | _ => Str.last_item (Str.split "/" s)
  end.
Proof.
  rewrite split_slash_cons. unfold Str.last_item.
  pose proof (split_not_nil "/" s) as Hne.
  destruct (Str.split "/" s) as [|seg [|seg' segs]]; [congruence| |];
    destruct (Ascii.eqb c "/"); reflexivity.
Qed.

Lemma last_item_split_slash_free (s : string) :
  Str.mem "/" (Str.last_item (Str.split "/" s)) = false.
Proof.
  induction s as [|c s IH]; [reflexivity|].
  rewrite last_item_split_cons.
  pose proof (split_not_nil "/" s) as Hne.
  destruct (Str.split "/" s) as [|seg [|seg' segs]] eqn:E; [congruence| |exact IH].
  unfold Str.last_item in IH. simpl in IH.
  destruct (Ascii.eqb c "/") eqn:Hc; [exact IH|].
  simpl. rewrite (Ascii.eqb_sym "/" c), Hc, IH. reflexivity.
Qed.

Lemma last_item_split_app (a b : string) :
  Str.mem "/" b = false ->
  Str.last_item (Str.split "/" (a ++ "/" ++ b)) = b.
Proof.
  intros Hb. induction a as [|c a IH].
  - simpl. rewrite last_item_split_cons, (split_slash_free b Hb). reflexivity.
  - change (String c a ++ "/" ++ b) with (String c (a ++ "/" ++ b)).
    rewrite last_item_split_cons.
    pose proof (split_not_nil "/" (a ++ "/" ++ b)) as Hne.
    destruct (Str.split "/" (a ++ "/" ++ b)) as [|seg [|seg' segs]] eqn:E;
      [congruence| |exact IH].
    exfalso. clear IH Hne.
    revert seg E. induction a as [|d a IHa]; intros seg E.
    + simpl in E. rewrite split_slash_cons in E. simpl in E.
      pose proof (split_not_nil "/" b). destruct (Str.split "/" b); congruence.
    + change (String d a ++ "/" ++ b) with (String d (a ++ "/" ++ b)) in E.
      rewrite split_slash_cons in E.
      pose proof (split_not_nil "/" (a ++ "/" ++ b)) as Hne.
      destruct (Str.split "/" (a ++ "/" ++ b)) as [|seg0 [|seg1 segs0]];
        [congruence| |destruct (Ascii.eqb d "/"); discriminate].
      destruct (Ascii.eqb d "/"); [discriminate|].
      eapply IHa. reflexivity.
Qed.

Lemma replace_slash_cons (c : ascii) (s : string) :
  Str.replace "/" "-" (String c s) =
  String (if Ascii.eqb c "/" then "-"%char else c) (Str.replace "/" "-" s).
Proof.
  unfold Str.replace. simpl.
  destruct (Ascii.eqb c "/"); reflexivity.
Qed.

Lemma replace_slash_free (s : string) :
  Str.mem "/" (Str.replace "/" "-" s) = false.
Proof.
  induction s as [|c s IH]; [reflexivity|].
  rewrite replace_slash_cons. simpl. rewrite IH.
  destruct (Ascii.eqb c "/") eqn:Hc; [reflexivity|].
  now rewrite (Ascii.eqb_sym "/" c), Hc.
Qed.

Lemma replace_slash_length (s : string) :
  String.length (Str.replace "/" "-" s) = String.length s.
Proof.
  induction s as [|c s IH]; [reflexivity|].
  rewrite replace_slash_cons. simpl. now rewrite IH.
Qed.

Lemma replace_slash_get (s : string) (n : nat) :
  String.get n (Str.replace "/" "-" s) =
  option_map (fun c => if Ascii.eqb c "/" then "-"%char else c) (String.get n s).
Proof.
  revert n. induction s as [|c s IH]; intros n; [reflexivity|].
  rewrite replace_slash_cons. destruct n; simpl; [reflexivity|apply IH].
Qed.

(** ** [url_for_ref] *)

(** C7: the GitLab adapter's [url_for_ref] does not look at the kind: any two
    kinds give the same computation.  It returns, without a request,
    [<forge_root>/<project_path>/-/archive/<ref>/<name>-<clean_ref>.tar.bz2];
    the last path segment of that URL is [<name>-<clean_ref>.tar.bz2], where
    [name] is the last segment of the project path (it holds no slash) and
    [clean_ref] is [ref] with every slash turned into a dash, character by
    character, and nothing else changed. *)
Theorem gitlab_url_for_ref_ignores_kind :
  forall (self : GitlabAPI.t) (ref : string) (k1 k2 : RefType.t)
         (t : transport) (log : list request),
    let name := Str.last_item (Str.split "/" (GitlabAPI.project_path self)) in
    let clean_ref := Str.replace "/" "-" ref in
    let filename := name ++ "-" ++ clean_ref ++ ".tar.bz2" in
    GitlabAPI.url_for_ref self ref k1 = GitlabAPI.url_for_ref self ref k2 /\
    (exists u : string,
        GitlabAPI.url_for_ref self ref k1 t log = (Returned u, log) /\
        u = (GitlabAPI.forge_root self ++ "/" ++ GitlabAPI.project_path self
             ++ "/-/archive/" ++ ref) ++ "/" ++ filename /\
        Str.last_item (Str.split "/" u) = filename) /\
    Str.mem "/" name = false /\
    String.length clean_ref = String.length ref /\
    (forall n : nat,
        String.get n clean_ref =
        option_map (fun c => if Ascii.eqb c "/" then "-"%char else c)
          (String.get n ref)).
Proof.
  intros self ref k1 k2 t log name clean_ref filename.
  assert (Hfile : Str.mem "/" filename = false).
  { unfold filename. rewrite !mem_app.
    unfold name. rewrite last_item_split_slash_free.
    unfold clean_ref. rewrite replace_slash_free. reflexivity. }
  split; [reflexivity|]. split; [|split; [|split]].
  - eexists. split; [|split].
    + unfold GitlabAPI.url_for_ref, ret. reflexivity.
    + fold name. fold clean_ref. unfold filename.
      rewrite !append_assoc. reflexivity.
    + fold name. fold clean_ref.
      replace (GitlabAPI.forge_root self ++ "/" ++ GitlabAPI.project_path self
               ++ "/-/archive/" ++ ref ++ "/" ++ name ++ "-" ++ clean_ref ++ ".tar.bz2")
        with ((GitlabAPI.forge_root self ++ "/" ++ GitlabAPI.project_path self
               ++ "/-/archive/" ++ ref) ++ "/" ++ filename).
      * apply last_item_split_app. exact Hfile.
      * unfold filename. rewrite !append_assoc. reflexivity.
  - apply last_item_split_slash_free.
  - apply replace_slash_length.
  - apply replace_slash_get.
Qed.

(** C6: [url_for_ref] is a function of the adapter, the ref and the kind
    alone.  On each of the three adapters, two calls with the same ref and
    kind give the same outcome whatever the transport answers and whatever
    was requested before, and neither call adds a request to the log. *)
Theorem url_for_ref_deterministic :
  forall (a : Forge.adapter) (ref : string) (kind : RefType.t)
         (t1 t2 : transport) (log1 log2 : list request),
    fst (Forge.url_for_ref a ref kind t1 log1) =
    fst (Forge.url_for_ref a ref kind t2 log2) /\
    snd (Forge.url_for_ref a ref kind t1 log1) = log1 /\
    snd (Forge.url_for_ref a ref kind t2 log2) = log2.
Proof.
  intros [self|self|self] ref kind t1 t2 log1 log2; simpl.
  - unfold GithubAPI.url_for_ref.
    destruct kind; simpl; unfold ret; simpl; auto.
  - unfold GitlabAPI.url_for_ref, ret; simpl; auto.
  - unfold GiteaForgejoAPI.url_for_ref, ret; simpl; auto.
Qed.

(** ** Construction of the GitHub adapter *)

Lemma split_slash_two (a b : string) :
  Str.mem "/" a = false -> Str.mem "/" b = false ->
  Str.split "/" (a ++ "/" ++ b) = [a; b].
Proof.
  intros Ha Hb. induction a as [|c a IH].
  - simpl. rewrite split_slash_cons. simpl. now rewrite (split_slash_free b Hb).
  - simpl in Ha. apply orb_false_iff in Ha as [Hc Ha].
    change (String c a ++ "/" ++ b) with (String c (a ++ "/" ++ b)).
    rewrite split_slash_cons, (Ascii.eqb_sym c "/"), Hc, (IH Ha). reflexivity.
Qed.

Lemma split_slash_two_inv (s a b : string) :
  Str.split "/" s = [a; b] ->
  s = a ++ "/" ++ b /\ Str.mem "/" a = false /\ Str.mem "/" b = false.
Proof.
  revert a. induction s as [|c s IH]; intros a E; [discriminate|].
  rewrite split_slash_cons in E.
  destruct (Ascii.eqb c "/") eqn:Hc.
  - apply Ascii.eqb_eq in Hc. subst c. injection E as <- E.
    assert (Hb : Str.mem "/" b = false).
    { pose proof (last_item_split_slash_free s) as H. now rewrite E in H. }
    rewrite (split_slash_free_inv s b) by (rewrite E; reflexivity) .
    auto.
  - destruct (Str.split "/" s) as [|seg segs] eqn:Es; [discriminate|].
    injection E as <- ->.
    destruct (IH seg eq_refl) as (-> & Hseg & Hb).
    repeat split; [|exact Hb].
    simpl. now rewrite (Ascii.eqb_sym "/" c), Hc, Hseg.
Qed.

Lemma lstrip_head (chars s : string) (c : ascii) (r : string) :
  Str.lstrip chars s = String c r -> Str.mem c chars = false.
Proof.
  induction s as [|d s IH]; simpl; [discriminate|].
  destruct (Str.mem d chars) eqn:Hd; [exact IH|].
  intros E. injection E as <- _. exact Hd.
Qed.

Lemma lstrip_suffix (chars s : string) :
  exists p : string, s = p ++ Str.lstrip chars s.
Proof.
  induction s as [|d s [p IH]]; simpl.
  - now exists "".
  - destruct (Str.mem d chars).
    + exists (String d p). simpl. now rewrite <- IH.
    + now exists "".
Qed.

Lemma append_last_inv (x y : string) (c d : ascii) :
  x ++ String c "" = y ++ String d "" -> x = y /\ c = d.
Proof.
  revert y. induction x as [|a x IH]; intros [|b y] E; simpl in E.
  - injection E as ->. auto.
  - injection E as -> E. destruct y; discriminate.
  - injection E as -> E. destruct x; discriminate.
  - injection E as -> E. destruct (IH _ E) as [-> ->]. auto.
Qed.

Lemma rstrip_last (chars s x : string) (c : ascii) :
  Str.rstrip chars s = x ++ String c "" -> Str.mem c chars = false.
Proof.
  revert x. induction s as [|d s IH]; intros x; simpl.
  - destruct x; discriminate.
  - destruct (Str.rstrip chars s) as [|e r] eqn:Er.
    + destruct (Str.mem d chars) eqn:Hd.
      * destruct x; discriminate.
      * intros E. destruct x as [|a x]; simpl in E.
        -- injection E as <-. exact Hd.
        -- injection E as _ E. destruct x; discriminate.
    + intros E. destruct x as [|a x]; simpl in E; [discriminate|].
      injection E as _ E. exact (IH x E).
Qed.

Lemma strip_last (chars s x : string) (c : ascii) :
  Str.strip chars s = x ++ String c "" -> Str.mem c chars = false.
Proof.
  unfold Str.strip. intros E.
  destruct (lstrip_suffix chars (Str.rstrip chars s)) as [p Hp].
  rewrite E, <- append_assoc in Hp.
  exact (rstrip_last _ _ _ _ Hp).
Qed.

Lemma strip_two_segments (s : string) :
  List.length (Str.split "/" (Str.strip "/" s)) = 2%nat <->
  owner_repo_pair (Str.strip "/" s).
Proof.
  split.
  - intros H.
    destruct (Str.split "/" (Str.strip "/" s)) as [|a [|b [|c l]]] eqn:E;
      try discriminate.
    destruct (split_slash_two_inv _ _ _ E) as (Hs & Ha & Hb).
    exists a, b. repeat split; auto.
    + intros ->. simpl in Hs.
      pose proof (lstrip_head "/" (Str.rstrip "/" s) "/" b Hs). discriminate.
    + intros ->. pose proof (strip_last "/" s a "/" Hs). discriminate.
  - intros (a & b & Hs & _ & _ & Ha & Hb).
    rewrite Hs, (split_slash_two a b Ha Hb). reflexivity.
Qed.

Lemma slashes_app (a b : string) : slashes (a ++ b) = slashes a + slashes b.
Proof. induction a as [|c a IH]; simpl; [reflexivity|]. rewrite IH. lia. Qed.

Lemma slashes_free (s : string) : Str.mem "/" s = false -> slashes s = 0.
Proof.
  induction s as [|c s IH]; simpl; [reflexivity|].
  intros H. apply orb_false_iff in H as [Hc Hs].
  now rewrite (Ascii.eqb_sym c "/"), Hc, (IH Hs).
Qed.

Lemma startswith_spec (s p : string) :
  Str.startswith s p = true <-> exists r : string, s = p ++ r.
Proof.
  revert s. induction p as [|a p IH]; intros s; simpl.
  - split; [intros _; now exists s|reflexivity].
  - destruct s as [|b s].
    + split; [discriminate|intros (r & H); discriminate].
    + rewrite andb_true_iff, Ascii.eqb_eq, IH. split.
      * intros (-> & r & ->). now exists r.
      * intros (r & [= -> ->]). split; [reflexivity|now exists r].
Qed.

Lemma replace_github_few_slashes (s : string) :
  slashes s < 3 -> Str.replace "https://github.com/" "" s = s.
Proof.
  unfold Str.replace. induction s as [|c s IH]; intros H; [reflexivity|].
  cbn [Str.replace_from].
  destruct (Str.startswith (String c s) "https://github.com/") eqn:E.
  - apply startswith_spec in E as (r & E). rewrite E, slashes_app in H.
    simpl in H. lia.
  - f_equal. apply IH. simpl in H. lia.
Qed.

Lemma replace_github_prefix (s : string) :
  Str.replace "https://github.com/" "" ("https://github.com/" ++ s) =
  Str.replace "https://github.com/" "" s.
Proof. reflexivity. Qed.

Lemma lstrip_id (chars s : string) (c : ascii) :
  Str.mem c chars = false -> Str.lstrip chars (String c s) = String c s.
Proof. intros H. simpl. now rewrite H. Qed.

Lemma rstrip_id (chars x : string) (c : ascii) :
  Str.mem c chars = false ->
  Str.rstrip chars (x ++ String c "") = x ++ String c "".
Proof.
  intros H. induction x as [|d x IH]; simpl.
  - now rewrite H.
  - rewrite IH. destruct (x ++ String c "") eqn:E; [|reflexivity].
    destruct x; discriminate.
Qed.

Lemma last_char (s : string) :
  s <> "" -> exists (x : string) (c : ascii), s = x ++ String c "".
Proof.
  induction s as [|d s IH]; [congruence|]. intros _.
  destruct s as [|e s].
  - now exists "", d.
  - destruct IH as (x & c & E); [discriminate|].
    exists (String d x), c. simpl. now rewrite <- E.
Qed.

Lemma strip_slash_id (a b : string) (c : ascii) :
  Ascii.eqb c "/" = false -> b <> "" -> Str.mem "/" b = false ->
  Str.strip "/" (String c a ++ b) = String c a ++ b.
Proof.
  intros Hc Hb Hfree. unfold Str.strip.
  destruct (last_char b Hb) as (x & d & ->).
  rewrite mem_app in Hfree. apply orb_false_iff in Hfree as [_ Hd].
  simpl in Hd. rewrite orb_false_r in Hd.
  rewrite <- append_assoc, rstrip_id.
  - simpl. now rewrite Hc.
  - simpl. now rewrite (Ascii.eqb_sym d "/"), Hd.
Qed.

Lemma github_init_run (upstream : string) (auth : option (string * string))
  (t : transport) (log : list request) (owner name : string) :
  Str.strip "/" (Str.replace "https://github.com/" "" upstream) = owner ++ "/" ++ name ->
  Str.mem "/" owner = false -> Str.mem "/" name = false ->
  GithubAPI.init upstream auth t log =
  (Returned {| GithubAPI.upstream := Str.strip "/" upstream;
               GithubAPI.upstream_repo := owner ++ "/" ++ name;
               GithubAPI.auth := auth |}, log).
Proof.
  intros E Ho Hn. unfold GithubAPI.init.
  rewrite E, (split_slash_two owner name Ho Hn). reflexivity.
Qed.

(** C3, as the code has it: construction of the GitHub adapter sends no
    request and has two outcomes.  Let [repo] be the upstream string with
    every occurrence of "https://github.com/" removed, wherever it stands,
    and the slashes at both ends stripped.  Either [repo] has exactly
    two path segments, which is to say that it is a non-empty owner and a
    non-empty repository name with one slash between them, and construction
    returns the adapter; or it has another number of segments, and
    construction fails with the assertion error that names the upstream
    (the spec's InvalidProjectError).  In particular construction succeeds
    on every [owner/name], bare or after "https://github.com/", where owner
    and name are non-empty and hold no slash. *)
Theorem github_init_owner_repo :
  forall (auth : option (string * string)) (t : transport) (log : list request),
    (forall upstream : string,
        let repo := Str.strip "/" (Str.replace "https://github.com/" "" upstream) in
        (List.length (Str.split "/" repo) = 2%nat /\
         owner_repo_pair repo /\
         GithubAPI.init upstream auth t log =
         (Returned {| GithubAPI.upstream := Str.strip "/" upstream;
                      GithubAPI.upstream_repo := repo;
                      GithubAPI.auth := auth |}, log))
        \/
        (List.length (Str.split "/" repo) <> 2%nat /\
         ~ owner_repo_pair repo /\
         GithubAPI.init upstream auth t log =
         (Raised (AssertionError
                    (Some ("'" ++ upstream ++ "' doesn't seem to be a github repository ?"))),
          log))) /\
    (forall owner name : string,
        owner <> "" -> name <> "" ->
        Str.mem "/" owner = false -> Str.mem "/" name = false ->
        GithubAPI.init (owner ++ "/" ++ name) auth t log =
        (Returned {| GithubAPI.upstream := owner ++ "/" ++ name;
                     GithubAPI.upstream_repo := owner ++ "/" ++ name;
                     GithubAPI.auth := auth |}, log) /\
        GithubAPI.init ("https://github.com/" ++ owner ++ "/" ++ name) auth t log =
        (Returned {| GithubAPI.upstream := "https://github.com/" ++ owner ++ "/" ++ name;
                     GithubAPI.upstream_repo := owner ++ "/" ++ name;
                     GithubAPI.auth := auth |}, log)).
Proof.
  intros auth t log. split.
  - intros upstream repo.
    unfold GithubAPI.init. fold repo.
    destruct (Nat.eqb (List.length (Str.split "/" repo)) 2) eqn:E.
    + left. apply Nat.eqb_eq in E. split; [exact E|]. split; [|reflexivity].
      apply strip_two_segments. exact E.
    + right. apply Nat.eqb_neq in E. split; [exact E|]. split; [|reflexivity].
      intros H. apply E. apply strip_two_segments. exact H.
  - intros owner name Ho Hn Hofree Hnfree.
    destruct owner as [|c a]; [congruence|]. clear Ho.
    assert (Hc : Ascii.eqb c "/" = false).
    { simpl in Hofree. apply orb_false_iff in Hofree as [Hc _].
      now rewrite Ascii.eqb_sym. }
    assert (Hfew : slashes (String c a ++ "/" ++ name) < 3).
    { rewrite !slashes_app, (slashes_free _ Hofree), (slashes_free _ Hnfree).
      simpl. lia. }
    assert (Hstrip : Str.strip "/" (String c a ++ "/" ++ name)
                     = String c a ++ "/" ++ name).
    { rewrite <- append_assoc. now apply strip_slash_id. }
    split.
    + rewrite (github_init_run _ auth t log (String c a) name);
        [now rewrite Hstrip| |exact Hofree|exact Hnfree].
      now rewrite (replace_github_few_slashes _ Hfew).
    + assert (Hstrip' : Str.strip "/" ("https://github.com/" ++ String c a ++ "/" ++ name)
                        = "https://github.com/" ++ String c a ++ "/" ++ name).
      { replace ("https://github.com/" ++ String c a ++ "/" ++ name)
          with (String "h" ("ttps://github.com/" ++ String c a ++ "/") ++ name)
          by (simpl; now rewrite append_assoc).
        now apply strip_slash_id. }
      rewrite (github_init_run _ auth t log (String c a) name);
        [now rewrite Hstrip'| |exact Hofree|exact Hnfree].
      rewrite replace_github_prefix, (replace_github_few_slashes _ Hfew).
      exact Hstrip.
Qed.

Lemma github_init_owner_repo_witness :
  GithubAPI.init "owner/repo" None (Fixture.always Fixture.gitlab_page) [] =
  (Returned {| GithubAPI.upstream := "owner/repo";
               GithubAPI.upstream_repo := "owner/repo";
               GithubAPI.auth := None |}, []) /\
  GithubAPI.init "https://github.com/owner/repo" None
    (Fixture.always Fixture.gitlab_page) [] =
  (Returned Fixture.github, []).
Proof.
  apply (proj2 (github_init_owner_repo None (Fixture.always Fixture.gitlab_page) [])
           "owner" "repo"); try reflexivity; discriminate.
Defined.

(** The claim C3 fails as stated: "owner/https://github.com/repo" does not
    begin with "https://github.com/", and with that prefix taken off the
    front (there is none) and its end slashes stripped it has five path
    segments; construction returns an adapter for "owner/repo" all the
    same, the URL being removed from the middle. *)
Lemma github_init_prefix_counterexample :
  Str.startswith "owner/https://github.com/repo" "https://github.com/" = false /\
  List.length
    (Str.split "/"
       (Str.strip "/" (removeprefix "https://github.com/" "owner/https://github.com/repo")))
  = 5%nat /\
  GithubAPI.init "owner/https://github.com/repo" None
    (Fixture.always Fixture.gitlab_page) []
  = (Returned {| GithubAPI.upstream := "owner/https://github.com/repo";
                 GithubAPI.upstream_repo := "owner/repo";
                 GithubAPI.auth := None |}, []).
Proof. repeat split. Qed.

(** ** Requests *)

Lemma api_call (u : string) (a : option (string * string))
  (t : transport) (log : list request) :
  (r <- requests_get u a ;; _ <- raise_for_status r ;; response_json r) t log =
  (decoded (t log {| url := u; auth := a |}),
   (log ++ [{| url := u; auth := a |}])%list).
Proof.
  unfold bind, requests_get, raise_for_status, response_json, decoded.
  destruct (t log _) as [e|r]; [reflexivity|].
  destruct ((400 <=? status_code r) && (status_code r <? 600))%Z; [reflexivity|].
  unfold ret, raise. destruct (json_body r); reflexivity.
Qed.

Lemma bind_lift {A B : Type} (c : Net A) (f : A -> outcome B)
  (t : transport) (log : list request) :
  (x <- c ;; lift (f x)) t log = (obind (fst (c t log)) f, snd (c t log)).
Proof.
  unfold bind, lift. destruct (c t log) as [[e|a] log']; reflexivity.
Qed.

Lemma obind_returned {A B : Type} (c : outcome A) (k : A -> outcome B) (b : B) :
  obind c k = Returned b <-> exists a : A, c = Returned a /\ k a = Returned b.
Proof.
  destruct c as [e|a]; simpl; split.
  - discriminate.
  - intros (a & H & _). discriminate.
  - intros H. now exists a.
  - intros (a' & [= <-] & H). exact H.
Qed.

Lemma omap_returned {A B : Type} (f : A -> outcome B) (l : list A) (l' : list B) :
  omap f l = Returned l' <-> Forall2 (fun x y => f x = Returned y) l l'.
Proof.
  revert l'. induction l as [|x l IH]; intros l'; simpl.
  - split.
    + intros [= <-]. constructor.
    + intros H. inversion H. reflexivity.
  - rewrite obind_returned. split.
    + intros (y & Hy & H). apply obind_returned in H as (ys & Hys & [= <-]).
      constructor; [exact Hy|]. now apply IH.
    + intros H. inversion H as [|? y ? ys Hy Hys]; subst.
      exists y. split; [exact Hy|]. apply obind_returned.
      exists ys. split; [now apply IH|reflexivity].
Qed.

(** ** The GitLab adapter's remapping *)

Lemma remap_commit_spec (native out : json) :
  GitlabAPI.remap_commit native = Returned out <-> gitlab_commit_remapped native out.
Proof.
  unfold GitlabAPI.remap_commit, gitlab_commit_remapped.
  rewrite obind_returned. split.
  - intros (id & Hid & H). apply obind_returned in H as (date & Hdate & [= <-]).
    now exists id, date.
  - intros (id & date & Hid & Hdate & ->). exists id. split; [exact Hid|].
    now rewrite Hdate.
Qed.

Lemma remap_link_spec (native out : json) :
  GitlabAPI.remap_link native = Returned out <-> link_remapped native out.
Proof.
  unfold GitlabAPI.remap_link, link_remapped.
  rewrite obind_returned. split.
  - intros (name & Hname & H). apply obind_returned in H as (u & Hu & [= <-]).
    now exists name, u.
  - intros (name & u & Hname & Hu & ->). exists name. split; [exact Hname|].
    now rewrite Hu.
Qed.

Lemma remap_source_spec (repr : json -> string) (native out : json) :
  GitlabAPI.remap_source repr native = Returned out <->
  source_remapped repr native out.
Proof.
  unfold GitlabAPI.remap_source, source_remapped.
  rewrite obind_returned. split.
  - intros (format & Hf & H). apply obind_returned in H as (u & Hu & [= <-]).
    now exists format, u.
  - intros (format & u & Hf & Hu & ->). exists format. split; [exact Hf|].
    now rewrite Hu.
Qed.

Lemma Forall2_weaken {A B : Type} (P Q : A -> B -> Prop) (l : list A) (l' : list B) :
  (forall x y, P x y -> Q x y) -> Forall2 P l l' -> Forall2 Q l l'.
Proof.
  intros H F. induction F; constructor; auto.
Qed.

Lemma remap_release_spec (repr : json -> string) (native out : json) :
  GitlabAPI.remap_release repr native = Returned out <->
  release_remapped repr native out.
Proof.
  unfold GitlabAPI.remap_release, release_remapped. split.
  - intros H.
    apply obind_returned in H as (tag_name & H1 & H).
    apply obind_returned in H as (links0 & H2 & H).
    apply obind_returned in H as (html_url & H3 & H).
    apply obind_returned in H as (assets0 & H4 & H).
    apply obind_returned in H as (links & H5 & H).
    apply obind_returned in H as (link_items & H6 & H).
    apply obind_returned in H as (from_links & H7 & H).
    apply obind_returned in H as (assets1 & H8 & H).
    apply obind_returned in H as (sources & H9 & H).
    apply obind_returned in H as (source_items & H10 & H).
    apply obind_returned in H as (from_sources & H11 & [= <-]).
    rewrite H4 in H8. injection H8 as <-.
    exists tag_name, links0, html_url, assets0, links, sources,
      link_items, source_items, from_links, from_sources.
    repeat split; try assumption.
    + apply omap_returned in H7.
      eapply Forall2_weaken; [|exact H7]. intros x y. apply remap_link_spec.
    + apply omap_returned in H11.
      eapply Forall2_weaken; [|exact H11]. intros x y. apply remap_source_spec.
  - intros (tag_name & links0 & html_url & assets0 & links & sources &
            link_items & source_items & from_links & from_sources &
            H1 & H2 & H3 & H4 & H5 & H6 & H7 & H8 & H9 & H10 & ->).
    rewrite H1. simpl. rewrite H2. simpl. rewrite H3. simpl.
    rewrite H4. simpl. rewrite H5. simpl. rewrite H6. simpl.
    assert (E1 : omap GitlabAPI.remap_link link_items = Returned from_links).
    { apply omap_returned. eapply Forall2_weaken; [|exact H7]. intros x y. apply remap_link_spec. }
    assert (E2 : omap (GitlabAPI.remap_source repr) source_items = Returned from_sources).
    { apply omap_returned. eapply Forall2_weaken; [|exact H10]. intros x y. apply remap_source_spec. }
    rewrite E1. simpl. rewrite H8. simpl. rewrite H9. simpl. rewrite E2.
    reflexivity.
Qed.

Lemma gitlab_releases_run (repr : json -> string) (self : GitlabAPI.t)
  (t : transport) (log : list request) :
  let req := Forge.request_of repr (Forge.Releases (Forge.Gitlab self)) in
  GitlabAPI.releases repr self t log =
  (let? native := decoded (t log req) in
   let? items := Py.iter native in
   let? retval := omap (GitlabAPI.remap_release repr) items in
   Returned (JArr retval),
   (log ++ [req])%list).
Proof.
  unfold GitlabAPI.releases, GitlabAPI.internal_api.
  rewrite bind_lift, api_call. reflexivity.
Qed.

Lemma gitlab_releases_spec (repr : json -> string) (self : GitlabAPI.t)
  (t : transport) (log log' : list request) (v : json) :
  let req := Forge.request_of repr (Forge.Releases (Forge.Gitlab self)) in
  GitlabAPI.releases repr self t log = (Returned v, log') <->
  exists (native : json) (natives outs : list json),
    decoded (t log req) = Returned native /\
    log' = (log ++ [req])%list /\
    Py.iter native = Returned natives /\
    Forall2 (release_remapped repr) natives outs /\
    v = JArr outs.
Proof.
  intros req. rewrite gitlab_releases_run. fold req. split.
  - intros [= H <-].
    apply obind_returned in H as (native & Hn & H).
    apply obind_returned in H as (natives & Hi & H).
    apply obind_returned in H as (outs & Ho & [= <-]).
    exists native, natives, outs. repeat split; try assumption.
    apply omap_returned in Ho. eapply Forall2_weaken; [|exact Ho]. intros x y. apply remap_release_spec.
  - intros (native & natives & outs & Hn & -> & Hi & Ho & ->).
    rewrite Hn. simpl. rewrite Hi. simpl.
    assert (E : omap (GitlabAPI.remap_release repr) natives = Returned outs).
    { apply omap_returned. eapply Forall2_weaken; [|exact Ho]. intros x y. apply remap_release_spec. }
    rewrite E. reflexivity.
Qed.

(** C4: [releases] of the GitLab adapter returns a list exactly when the
    forge answers with an iterable of native releases that each remap, and
    the list then holds, for each native release in order, the record whose
    assets are one [{name, browser_download_url}] per entry of
    [assets.links] (from [name] and [direct_asset_url]) followed by one per
    entry of [assets.sources], named [source.<format>] and carrying the
    entry's [url].  Hence a native release with one link and one source of
    format [zip] gives exactly two assets, the second named [source.zip]. *)
Theorem gitlab_releases_assets :
  forall repr : json -> string,
    (forall (self : GitlabAPI.t) (t : transport) (log log' : list request) (v : json),
        GitlabAPI.releases repr self t log = (Returned v, log') <->
        exists (native : json) (natives outs : list json),
          decoded (t log (Forge.request_of repr (Forge.Releases (Forge.Gitlab self))))
          = Returned native /\
          log' = (log ++ [Forge.request_of repr (Forge.Releases (Forge.Gitlab self))])%list /\
          Py.iter native = Returned natives /\
          Forall2 (release_remapped repr) natives outs /\
          v = JArr outs) /\
    (forall native out assets0 links sources link source : json,
        GitlabAPI.remap_release repr native = Returned out ->
        Py.getitem native "assets" = Returned assets0 ->
        Py.getitem assets0 "links" = Returned links ->
        Py.iter links = Returned [link] ->
        Py.getitem assets0 "sources" = Returned sources ->
        Py.iter sources = Returned [source] ->
        Py.getitem source "format" = Returned (JStr "zip") ->
        exists first u : json,
          Py.getitem out "assets" =
          Returned (JArr [first;
                          JObj [("name", JStr "source.zip");
                                ("browser_download_url", u)]]) /\
          link_remapped link first /\
          Py.getitem source "url" = Returned u).
Proof.
  intros repr. split.
  - intros self t log log' v. apply gitlab_releases_spec.
  - intros native out assets0 links sources link source H Ha Hl Hli Hs Hsi Hf.
    apply remap_release_spec in H
      as (tag_name & links0 & html_url & assets0' & links' & sources' &
          link_items & source_items & from_links & from_sources &
          H1 & H2 & H3 & H4 & H5 & H6 & H7 & H8 & H9 & H10 & ->).
    rewrite Ha in H4. injection H4 as <-.
    rewrite Hl in H5. injection H5 as <-.
    rewrite Hli in H6. injection H6 as <-.
    rewrite Hs in H8. injection H8 as <-.
    rewrite Hsi in H9. injection H9 as <-.
    inversion H7 as [|? first ? ? Hfirst Hnil]; subst. inversion Hnil; subst.
    inversion H10 as [|? second ? ? Hsecond Hnil']; subst. inversion Hnil'; subst.
    destruct Hsecond as (format & u & Hformat & Hu & ->).
    rewrite Hf in Hformat. injection Hformat as <-.
    exists first, u. repeat split; assumption.
Qed.

Lemma gitlab_releases_assets_witness :
  GitlabAPI.remap_release Fixture.repr Fixture.native_release = Returned Fixture.release /\
  exists first u : json,
    Py.getitem Fixture.release "assets" =
    Returned (JArr [first;
                          JObj [("name", JStr "source.zip");
                                ("browser_download_url", u)]]) /\
    link_remapped Fixture.link first /\
    Py.getitem Fixture.source "url" = Returned u.
Proof.
  split; [reflexivity|].
  apply (proj2 (gitlab_releases_assets Fixture.repr)
           Fixture.native_release Fixture.release
           (JObj [("count", JNum 2);
                  ("sources", JArr [Fixture.source]);
                  ("links", JArr [Fixture.link])])
           (JArr [Fixture.link]) (JArr [Fixture.source]));
    reflexivity.
Defined.

(** C10: every record in the list that [releases] of the GitLab adapter
    returns has [prerelease] and [draft] set to [False], whatever the native
    release says. *)
Theorem gitlab_releases_prerelease_draft_false :
  forall (repr : json -> string) (self : GitlabAPI.t) (t : transport)
         (log log' : list request) (v : json),
    GitlabAPI.releases repr self t log = (Returned v, log') ->
    exists outs : list json,
      v = JArr outs /\
      Forall (fun out => Py.getitem out "prerelease" = Returned (JBool false) /\
                         Py.getitem out "draft" = Returned (JBool false)) outs.
Proof.
  intros repr self t log log' v H.
  apply gitlab_releases_spec in H
    as (native & natives & outs & _ & _ & _ & Ho & ->).
  exists outs. split; [reflexivity|].
  induction Ho as [|x out natives outs Hx _ IH]; constructor; [|exact IH].
  destruct Hx as (tag_name & links0 & html_url & assets0 & links & sources &
                  link_items & source_items & from_links & from_sources &
                  _ & _ & _ & _ & _ & _ & _ & _ & _ & _ & ->).
  split; reflexivity.
Qed.

Lemma gitlab_releases_prerelease_draft_false_witness :
  Py.getitem Fixture.native_release "prerelease" = Returned (JBool true) /\
  GitlabAPI.releases Fixture.repr Fixture.gitlab
    (Fixture.always (Fixture.json_response 200 (JArr [Fixture.native_release]))) []
  = (Returned (JArr [Fixture.release]),
     [{| url := "https://gitlab.example/api/v4/projects/42/releases"; auth := None |}]) /\
  exists outs : list json,
    JArr [Fixture.release] = JArr outs /\
    Forall (fun out => Py.getitem out "prerelease" = Returned (JBool false) /\
                       Py.getitem out "draft" = Returned (JBool false)) outs.
Proof.
  split; [reflexivity|]. split; [reflexivity|].
  apply (gitlab_releases_prerelease_draft_false Fixture.repr Fixture.gitlab
           (Fixture.always (Fixture.json_response 200 (JArr [Fixture.native_release])))
           []
           [{| url := "https://gitlab.example/api/v4/projects/42/releases"; auth := None |}]).
  reflexivity.
Defined.

(** ** Commits *)

Lemma github_internal_api_run (self : GithubAPI.t) (uri : string)
  (t : transport) (log : list request) :
  let req := {| url := "https://api.github.com/" ++ uri; auth := GithubAPI.auth self |} in
  GithubAPI.internal_api self uri t log = (decoded (t log req), (log ++ [req])%list).
Proof. apply api_call. Qed.

Lemma gitlab_internal_api_run (self : GitlabAPI.t) (uri : string)
  (t : transport) (log : list request) :
  let req := {| url := GitlabAPI.forge_root self ++ "/api/v4/" ++ uri; auth := None |} in
  GitlabAPI.internal_api self uri t log = (decoded (t log req), (log ++ [req])%list).
Proof. apply api_call. Qed.

Lemma gitea_internal_api_run (self : GiteaForgejoAPI.t) (uri : string)
  (t : transport) (log : list request) :
  let req := {| url := GiteaForgejoAPI.forge_root self ++ "/api/v1/" ++ uri; auth := None |} in
  GiteaForgejoAPI.internal_api self uri t log = (decoded (t log req), (log ++ [req])%list).
Proof. apply api_call. Qed.

Lemma gitlab_commits_run (repr : json -> string) (self : GitlabAPI.t)
  (t : transport) (log : list request) :
  let req := Forge.request_of repr (Forge.Commits (Forge.Gitlab self)) in
  GitlabAPI.commits repr self t log =
  (let? native := decoded (t log req) in
   let? items := Py.iter native in
   let? l := omap GitlabAPI.remap_commit items in
   Returned (JArr l),
   (log ++ [req])%list).
Proof.
  unfold GitlabAPI.commits. rewrite bind_lift, gitlab_internal_api_run. reflexivity.
Qed.

Lemma gitlab_tip_of_branch_run (repr : json -> string) (self : GitlabAPI.t)
  (branch : string) (t : transport) (log : list request) :
  let req := Forge.request_of repr (Forge.TipOfBranch (Forge.Gitlab self) branch) in
  GitlabAPI.tip_of_branch repr self branch t log =
  (let? b := decoded (t log req) in
   let? commit := Py.getitem b "commit" in
   GitlabAPI.remap_commit commit,
   (log ++ [req])%list).
Proof.
  unfold GitlabAPI.tip_of_branch. rewrite bind_lift, gitlab_internal_api_run.
  reflexivity.
Qed.

Lemma gitea_tip_of_branch_run (repr : json -> string) (self : GiteaForgejoAPI.t)
  (branch : string) (t : transport) (log : list request) :
  let req := Forge.request_of repr (Forge.TipOfBranch (Forge.GiteaForgejo self) branch) in
  GiteaForgejoAPI.tip_of_branch self branch t log =
  (let? b := decoded (t log req) in
   let? commit := Py.getitem b "commit" in
   let? sha := Py.getitem commit "id" in
   let? date := Py.getitem commit "timestamp" in
   Returned (JObj [("sha", sha);
                   ("commit", JObj [("author", JObj [("date", date)])])]),
   (log ++ [req])%list).
Proof.
  unfold GiteaForgejoAPI.tip_of_branch. rewrite bind_lift, gitea_internal_api_run.
  reflexivity.
Qed.

Lemma github_tip_of_branch_run (repr : json -> string) (self : GithubAPI.t)
  (branch : string) (t : transport) (log : list request) :
  let req := Forge.request_of repr (Forge.TipOfBranch (Forge.Github self) branch) in
  GithubAPI.tip_of_branch self branch t log =
  (let? b := decoded (t log req) in Py.getitem b "commit", (log ++ [req])%list).
Proof.
  unfold GithubAPI.tip_of_branch. rewrite bind_lift, github_internal_api_run.
  reflexivity.
Qed.

(** C1, as the code has it.  [commits] and [tip_of_branch] of the GitLab
    adapter and [tip_of_branch] of the Gitea/Forgejo adapter return exactly
    [{sha, commit: {author: {date}}}] records, [sha] being the native [id]
    and [date] the native [committed_date] (GitLab) or [timestamp]
    (Gitea/Forgejo), and they return exactly when the native records have
    these keys.  [commits] and [tip_of_branch] of the GitHub adapter and
    [commits] of the Gitea/Forgejo adapter return what the forge sent (for
    [tip_of_branch], its [commit] member) as it is. *)
Theorem commits_and_tips_remapped :
  forall (repr : json -> string) (t : transport) (log : list request),
    (forall (self : GitlabAPI.t) (v : json) (log' : list request),
        GitlabAPI.commits repr self t log = (Returned v, log') <->
        exists (native : json) (natives outs : list json),
          decoded (t log (Forge.request_of repr (Forge.Commits (Forge.Gitlab self))))
          = Returned native /\
          log' = (log ++ [Forge.request_of repr (Forge.Commits (Forge.Gitlab self))])%list /\
          Py.iter native = Returned natives /\
          Forall2 gitlab_commit_remapped natives outs /\
          Forall commit_info_shape outs /\
          v = JArr outs) /\
    (forall (self : GitlabAPI.t) (branch : string) (v : json) (log' : list request),
        GitlabAPI.tip_of_branch repr self branch t log = (Returned v, log') <->
        exists native commit : json,
          decoded (t log (Forge.request_of repr
                            (Forge.TipOfBranch (Forge.Gitlab self) branch)))
          = Returned native /\
          log' = (log ++ [Forge.request_of repr
                            (Forge.TipOfBranch (Forge.Gitlab self) branch)])%list /\
          Py.getitem native "commit" = Returned commit /\
          gitlab_commit_remapped commit v /\
          commit_info_shape v) /\
    (forall (self : GiteaForgejoAPI.t) (branch : string) (v : json) (log' : list request),
        GiteaForgejoAPI.tip_of_branch self branch t log = (Returned v, log') <->
        exists native commit : json,
          decoded (t log (Forge.request_of repr
                            (Forge.TipOfBranch (Forge.GiteaForgejo self) branch)))
          = Returned native /\
          log' = (log ++ [Forge.request_of repr
                            (Forge.TipOfBranch (Forge.GiteaForgejo self) branch)])%list /\
          Py.getitem native "commit" = Returned commit /\
          gitea_commit_remapped commit v /\
          commit_info_shape v) /\
    (forall self : GithubAPI.t,
        GithubAPI.commits self t log =
        (decoded (t log (Forge.request_of repr (Forge.Commits (Forge.Github self)))),
         (log ++ [Forge.request_of repr (Forge.Commits (Forge.Github self))])%list)) /\
    (forall (self : GithubAPI.t) (branch : string),
        GithubAPI.tip_of_branch self branch t log =
        (let? native :=
           decoded (t log (Forge.request_of repr
                             (Forge.TipOfBranch (Forge.Github self) branch))) in
         Py.getitem native "commit",
         (log ++ [Forge.request_of repr
                    (Forge.TipOfBranch (Forge.Github self) branch)])%list)) /\
    (forall self : GiteaForgejoAPI.t,
        GiteaForgejoAPI.commits self t log =
        (decoded (t log (Forge.request_of repr (Forge.Commits (Forge.GiteaForgejo self)))),
         (log ++ [Forge.request_of repr (Forge.Commits (Forge.GiteaForgejo self))])%list)).
Proof.
  intros repr t log. repeat apply conj.
  - intros self v log'. rewrite gitlab_commits_run. split.
    + intros [= H <-].
      apply obind_returned in H as (native & Hn & H).
      apply obind_returned in H as (natives & Hi & H).
      apply obind_returned in H as (outs & Ho & [= <-]).
      apply omap_returned in Ho.
      assert (F : Forall2 gitlab_commit_remapped natives outs).
      { eapply Forall2_weaken; [|exact Ho]. intros x y. apply remap_commit_spec. }
      exists native, natives, outs. repeat split; try assumption.
      clear Ho Hi. induction F as [|x y ? ? Hxy _ IH]; [constructor|].
      constructor; [|exact IH].
      destruct Hxy as (id & date & _ & _ & ->). now exists id, date.
    + intros (native & natives & outs & Hn & -> & Hi & Ho & _ & ->).
      rewrite Hn. simpl. rewrite Hi. simpl.
      assert (E : omap GitlabAPI.remap_commit natives = Returned outs).
      { apply omap_returned. eapply Forall2_weaken; [|exact Ho].
        intros x y. apply remap_commit_spec. }
      rewrite E. reflexivity.
  - intros self branch v log'. rewrite gitlab_tip_of_branch_run. split.
    + intros [= H <-].
      apply obind_returned in H as (native & Hn & H).
      apply obind_returned in H as (commit & Hc & H).
      apply remap_commit_spec in H.
      exists native, commit. repeat split; try assumption.
      destruct H as (id & date & _ & _ & ->). now exists id, date.
    + intros (native & commit & Hn & -> & Hc & H & _).
      rewrite Hn. simpl. rewrite Hc. simpl.
      apply remap_commit_spec in H. rewrite H. reflexivity.
  - intros self branch v log'. rewrite (gitea_tip_of_branch_run repr). split.
    + intros [= H <-].
      apply obind_returned in H as (native & Hn & H).
      apply obind_returned in H as (commit & Hc & H).
      apply obind_returned in H as (id & Hid & H).
      apply obind_returned in H as (date & Hdate & [= <-]).
      exists native, commit. repeat split; try assumption.
      * now exists id, date.
      * now exists id, date.
    + intros (native & commit & Hn & -> & Hc & (id & date & Hid & Hdate & ->) & _).
      rewrite Hn. simpl. rewrite Hc. simpl. rewrite Hid. simpl. rewrite Hdate.
      reflexivity.
  - intros self. apply github_internal_api_run.
  - intros self branch. apply (github_tip_of_branch_run repr).
  - intros self. apply gitea_internal_api_run.
Qed.

(** The claim C1 fails as stated: [commits] of the Gitea/Forgejo adapter
    hands on a native record whose fields are named [id] and [timestamp]
    as it came, with no [sha] in it. *)
Lemma commits_shape_counterexample :
  Forge.commits Fixture.repr (Forge.GiteaForgejo Fixture.gitea)
    (Fixture.always (Fixture.json_response 200 (JArr [Fixture.gitea_native_commit]))) []
  = (Returned (JArr [Fixture.gitea_native_commit]),
     [{| url := "https://gitea.example/api/v1/repos/owner/repo/commits"; auth := None |}]) /\
  ~ commit_info_shape Fixture.gitea_native_commit /\
  Py.getitem Fixture.gitea_native_commit "sha" = Raised (KeyError "sha").
Proof.
  split; [reflexivity|]. split; [|reflexivity].
  intros (sha & date & H). discriminate H.
Qed.

(** ** Resolution of the GitLab project id *)

Lemma gitlab_find_project_id_run (self : GitlabAPI.t) (project : string)
  (t : transport) (log : list request) :
  let log1 := (log ++ [lookup_request self project])%list in
  GitlabAPI.find_project_id self project t log =
  match decoded (t log (lookup_request self project)) with
  | Returned p => (id_of p, log1)
  | Raised (HTTPError status) =>
      if (status =? 404)%Z
      then (let? projects := decoded (t log1 (search_request self)) in
            let? items := Py.iter projects in
            let? p := Py.next_filter (has_path (GitlabAPI.project_path self)) items in
            id_of p,
            (log1 ++ [search_request self])%list)
      else (Raised (HTTPError status), log1)
  | Raised e => (Raised e, log1)
  end.
Proof.
  intros log1. unfold GitlabAPI.find_project_id, bind at 1, try_except.
  rewrite gitlab_internal_api_run.
  change {| url := GitlabAPI.forge_root self ++ "/api/v4/"
                   ++ "projects/" ++ Str.replace "/" "%2F" project;
            auth := None |} with (lookup_request self project).
  fold log1.
  destruct (decoded (t log (lookup_request self project))) as [e|p].
  - destruct e as [status| | |msg|key| | | | | ]; try reflexivity.
    destruct (status =? 404)%Z; [|reflexivity]. cbn [negb].
    unfold bind. cbv beta.
    rewrite gitlab_internal_api_run.
    change {| url := GitlabAPI.forge_root self ++ "/api/v4/" ++ "projects?search="
                     ++ Str.last_item (Str.split "/" (GitlabAPI.project_path self));
              auth := None |} with (search_request self).
    destruct (decoded (t log1 (search_request self))) as [e|projects];
      [reflexivity|].
    unfold lift. simpl obind.
    destruct (Py.iter projects) as [e|items]; [reflexivity|]. simpl obind.
    fold (has_path (GitlabAPI.project_path self)).
    destruct (Py.next_filter _ items) as [e|p]; [reflexivity|].
    unfold id_of, lift, raise. simpl. destruct (Py.is_dict p); reflexivity.
  - unfold id_of, lift, raise. destruct (Py.is_dict p); reflexivity.
Qed.

Lemma next_filter_found (p : json -> outcome bool) (before after : list json)
  (found : json) :
  Forall (fun x => p x = Returned false) before ->
  p found = Returned true ->
  Py.next_filter p (before ++ found :: after) = Returned found.
Proof.
  intros Hb Hf. induction Hb as [|x before Hx _ IH]; simpl.
  - now rewrite Hf.
  - now rewrite Hx.
Qed.

Lemma next_filter_none (p : json -> outcome bool) (items : list json) :
  Forall (fun x => p x = Returned false) items ->
  Py.next_filter p items = Raised StopIteration.
Proof.
  intros H. induction H as [|x items Hx _ IH]; simpl; [reflexivity|].
  now rewrite Hx.
Qed.

Lemma has_path_dict (path : string) (x : json) (b : bool) :
  has_path path x = Returned b -> Py.is_dict x = true.
Proof. destruct x; try discriminate. reflexivity. Qed.

(** C9: [find_project_id] first looks the project up by its exact path.
    When that returns a project, its id is the result and no other request
    is sent.  When it fails with anything but an [HTTPError] of status 404,
    the failure is the result and no other request is sent.  When it fails
    with status 404, one search by the last segment of the project path is
    sent: a failure of the search is the result; otherwise the first project
    whose [path_with_namespace] equals the project path gives the id, and
    when no project of the result has that path the result is
    [StopIteration] (the spec's ProjectNotFoundError).  Construction fails
    with whatever [find_project_id] fails with, and when [find_project_id]
    returns an id, construction returns the adapter with this id as its
    [project_id]. *)
Theorem gitlab_find_project_id_fallback :
  forall (self : GitlabAPI.t) (project : string) (t : transport) (log : list request),
    let first := decoded (t log (lookup_request self project)) in
    let log1 := (log ++ [lookup_request self project])%list in
    let second := decoded (t log1 (search_request self)) in
    let path := GitlabAPI.project_path self in
    let found_id := GitlabAPI.find_project_id self project t log in
    (forall p : json, first = Returned p -> found_id = (id_of p, log1)) /\
    (forall e : exception,
        first = Raised e -> e <> HTTPError 404 -> found_id = (Raised e, log1)) /\
    (first = Raised (HTTPError 404) ->
     snd found_id = (log1 ++ [search_request self])%list /\
     (forall e : exception, second = Raised e -> fst found_id = Raised e) /\
     (forall (projects : json) (before after : list json) (found : json),
         second = Returned projects ->
         Py.iter projects = Returned (before ++ found :: after)%list ->
         Forall (fun x => has_path path x = Returned false) before ->
         has_path path found = Returned true ->
         fst found_id = Py.get found "id") /\
     (forall (projects : json) (items : list json),
         second = Returned projects ->
         Py.iter projects = Returned items ->
         Forall (fun x => has_path path x = Returned false) items ->
         fst found_id = Raised StopIteration)) /\
    (forall (upstream root : string) (log0 log' : list request) (e : exception),
        GitlabAPI.get_forge_root upstream t log = (Returned root, log0) ->
        GitlabAPI.find_project_id
          {| GitlabAPI.forge_root := Str.rstrip "/" root;
             GitlabAPI.project_path :=
               Str.strip "/" (Str.replace (Str.rstrip "/" root) "" upstream);
             GitlabAPI.project_id := JNull |}
          (Str.strip "/" (Str.replace (Str.rstrip "/" root) "" upstream)) t log0
        = (Raised e, log') ->
        GitlabAPI.init upstream t log = (Raised e, log')) /\
    (forall (upstream root : string) (log0 log' : list request) (id : json),
        GitlabAPI.get_forge_root upstream t log = (Returned root, log0) ->
        GitlabAPI.find_project_id
          {| GitlabAPI.forge_root := Str.rstrip "/" root;
             GitlabAPI.project_path :=
               Str.strip "/" (Str.replace (Str.rstrip "/" root) "" upstream);
             GitlabAPI.project_id := JNull |}
          (Str.strip "/" (Str.replace (Str.rstrip "/" root) "" upstream)) t log0
        = (Returned id, log') ->
        GitlabAPI.init upstream t log =
        (Returned {| GitlabAPI.forge_root := Str.rstrip "/" root;
                     GitlabAPI.project_path :=
                       Str.strip "/" (Str.replace (Str.rstrip "/" root) "" upstream);
                     GitlabAPI.project_id := id |}, log')).
Proof.
  intros self project t log first log1 second path found_id.
  pose proof (gitlab_find_project_id_run self project t log) as Hrun.
  cbv zeta in Hrun. fold first log1 second path found_id in Hrun.
  repeat apply conj.
  - intros p Hp. rewrite Hrun, Hp. reflexivity.
  - intros e He Hne. rewrite Hrun, He.
    destruct e as [status| | |msg|key| | | | | ]; try reflexivity.
    destruct (status =? 404)%Z eqn:Hs; [|reflexivity].
    apply Z.eqb_eq in Hs. subst status. congruence.
  - intros H. rewrite Hrun, H. simpl. repeat apply conj.
    + reflexivity.
    + intros e He. rewrite He. reflexivity.
    + intros projects before after found Hp Hi Hb Hf.
      rewrite Hp. simpl. rewrite Hi. simpl.
      rewrite (next_filter_found _ _ _ _ Hb Hf). simpl.
      unfold id_of. now rewrite (has_path_dict _ _ _ Hf).
    + intros projects items Hp Hi Hn.
      rewrite Hp. simpl. rewrite Hi. simpl.
      now rewrite (next_filter_none _ _ Hn).
  - intros upstream root log0 log' e Hroot Hfind.
    unfold GitlabAPI.init, bind. rewrite Hroot. cbv beta zeta.
    rewrite Hfind. reflexivity.
  - intros upstream root log0 log' id Hroot Hfind.
    unfold GitlabAPI.init, bind. rewrite Hroot. cbv beta zeta.
    rewrite Hfind. reflexivity.
Qed.

Lemma gitlab_find_project_id_fallback_witness :
  decoded (Fixture.gitlab_forge [] (lookup_request Fixture.gitlab_unresolved "group/project"))
  = Raised (HTTPError 404) /\
  fst (GitlabAPI.find_project_id Fixture.gitlab_unresolved "group/project"
         Fixture.gitlab_forge [])
  = Returned (JNum 42) /\
  GitlabAPI.init "https://gitlab.example/group/project" Fixture.gitlab_forge []
  = (Returned {| GitlabAPI.forge_root := "https://gitlab.example";
                 GitlabAPI.project_path := "group/project";
                 GitlabAPI.project_id := JNum 42 |},
     [{| url := "https://gitlab.example/group/project"; auth := None |};
      {| url := "https://gitlab.example/api/v4/projects/group%2Fproject"; auth := None |};
      {| url := "https://gitlab.example/api/v4/projects?search=project"; auth := None |}]).
Proof.
  pose proof (gitlab_find_project_id_fallback Fixture.gitlab_unresolved "group/project"
                Fixture.gitlab_forge []) as (_ & _ & Hsearch & _ & Hinit).
  split; [reflexivity|]. split.
  - refine (proj1 (proj2 (proj2 (Hsearch eq_refl)))
              (JArr [Fixture.other_project; Fixture.wanted_project])
              [Fixture.other_project] [] Fixture.wanted_project
              eq_refl eq_refl _ eq_refl).
    repeat constructor.
  - exact (Hinit "https://gitlab.example/group/project" "https://gitlab.example"
             [{| url := "https://gitlab.example/group/project"; auth := None |}]
             _ (JNum 42) eq_refl eq_refl).
Defined.

(** ** Failed requests *)

Lemma page_call {A : Type} (u : string) (k : response -> Net A)
  (t : transport) (log : list request) :
  (r <- requests_get u None ;; _ <- raise_for_status r ;; k r) t log =
  match fetched (t log (page_request u)) with
  | Raised e => (Raised e, (log ++ [page_request u])%list)
  | Returned r => k r t (log ++ [page_request u])%list
  end.
Proof.
  unfold bind, requests_get, raise_for_status, fetched, page_request.
  destruct (t log _) as [e|r]; [reflexivity|].
  destruct ((400 <=? status_code r) && (status_code r <? 600))%Z; reflexivity.
Qed.

Lemma error_status (r : response) :
  (400 <= status_code r < 600)%Z ->
  ((400 <=? status_code r) && (status_code r <? 600))%Z = true.
Proof.
  intros [H1 H2]. apply andb_true_iff. split.
  - now apply Z.leb_le.
  - now apply Z.ltb_lt.
Qed.

Lemma decoded_error (answer : outcome response) (r : response) :
  answer = Returned r -> (400 <= status_code r < 600)%Z ->
  decoded answer = Raised (HTTPError (status_code r)).
Proof. intros -> H. unfold decoded. now rewrite (error_status r H). Qed.

Lemma fetched_error (answer : outcome response) (r : response) :
  answer = Returned r -> (400 <= status_code r < 600)%Z ->
  fetched answer = Raised (HTTPError (status_code r)).
Proof. intros -> H. unfold fetched. now rewrite (error_status r H). Qed.

Lemma returning_run {A : Type} (f : A -> Forge.value) (c : Net A)
  (t : transport) (log : list request) :
  Forge.returning f c t log =
  (obind (fst (c t log)) (fun x => Returned (f x)), snd (c t log)).
Proof.
  unfold Forge.returning, bind, ret. destruct (c t log) as [[e|a] log']; reflexivity.
Qed.

Lemma http_error_of_operation (repr : json -> string)
  (urljoin : string -> option string -> outcome string) (op : Forge.operation)
  (t : transport) (log : list request) (r : response) :
  t log (Forge.request_of repr op) = Returned r ->
  (400 <= status_code r < 600)%Z ->
  Forge.perform repr urljoin op t log =
  (Raised (HTTPError (status_code r)), (log ++ [Forge.request_of repr op])%list).
Proof.
  intros Hr Hs.
  pose proof (decoded_error _ r Hr Hs) as Hd.
  pose proof (fetched_error _ r Hr Hs) as Hf.
  destruct op as [a|a|a branch|a|u|u|self]; simpl Forge.perform;
    rewrite returning_run.
  - destruct a as [self|self|self]; simpl Forge.tags;
      [ unfold GithubAPI.tags; rewrite github_internal_api_run
      | unfold GitlabAPI.tags; rewrite gitlab_internal_api_run
      | unfold GiteaForgejoAPI.tags; rewrite gitea_internal_api_run ];
      simpl in Hd |- *; rewrite Hd; reflexivity.
  - destruct a as [self|self|self]; simpl Forge.commits;
      [ unfold GithubAPI.commits; rewrite github_internal_api_run
      | rewrite gitlab_commits_run
      | unfold GiteaForgejoAPI.commits; rewrite gitea_internal_api_run ];
      simpl in Hd |- *; rewrite Hd; reflexivity.
  - destruct a as [self|self|self]; simpl Forge.tip_of_branch;
      [ rewrite (github_tip_of_branch_run repr)
      | rewrite gitlab_tip_of_branch_run
      | rewrite (gitea_tip_of_branch_run repr) ];
      simpl in Hd |- *; rewrite Hd; reflexivity.
  - destruct a as [self|self|self]; simpl Forge.releases;
      [ unfold GithubAPI.releases; rewrite github_internal_api_run
      | rewrite gitlab_releases_run
      | unfold GiteaForgejoAPI.releases; rewrite gitea_internal_api_run ];
      simpl in Hd |- *; rewrite Hd; reflexivity.
  - unfold GitlabAPI.get_forge_root. rewrite page_call.
    simpl in Hf. unfold page_request. rewrite Hf. reflexivity.
  - unfold GiteaForgejoAPI.get_forge_root. rewrite page_call.
    simpl in Hf. unfold page_request. rewrite Hf. reflexivity.
  - unfold DownloadPageAPI.get_web_page_links. rewrite page_call.
    simpl in Hf. unfold page_request. rewrite Hf. reflexivity.
Qed.

(** C8, as the code has it.  Whatever the adapter and the operation ([tags],
    [commits], [tip_of_branch], [releases], forge-root discovery, the fetch
    of the download page), when the transport answers the operation's
    request with a status from 400 to 599 the operation fails with
    [HTTPError] carrying that status, and the request is the only one sent;
    in particular status 404 gives [HTTPError 404]. *)
Theorem http_error_propagated :
  forall (repr : json -> string) (urljoin : string -> option string -> outcome string)
         (op : Forge.operation) (t : transport) (log : list request) (r : response),
    t log (Forge.request_of repr op) = Returned r ->
    ((400 <= status_code r < 600)%Z ->
     Forge.perform repr urljoin op t log =
     (Raised (HTTPError (status_code r)), (log ++ [Forge.request_of repr op])%list)) /\
    (status_code r = 404%Z ->
     Forge.perform repr urljoin op t log =
     (Raised (HTTPError 404), (log ++ [Forge.request_of repr op])%list)).
Proof.
  intros repr urljoin op t log r Hr. split.
  - intros Hs. now apply http_error_of_operation.
  - intros Hs. rewrite <- Hs. apply http_error_of_operation; [exact Hr|lia].
Qed.

Lemma http_error_propagated_witness :
  Forge.perform Fixture.repr Fixture.urljoin
    (Forge.TipOfBranch (Forge.Github Fixture.github) "main")
    (Fixture.always (Fixture.json_response 404 (JObj [("message", JStr "Not Found")]))) []
  = (Raised (HTTPError 404),
     [{| url := "https://api.github.com/repos/owner/repo/branches/main"; auth := None |}]).
Proof.
  apply (proj2 (http_error_propagated Fixture.repr Fixture.urljoin
                  (Forge.TipOfBranch (Forge.Github Fixture.github) "main")
                  (Fixture.always
                     (Fixture.json_response 404 (JObj [("message", JStr "Not Found")])))
                  [] _ eq_refl)).
  reflexivity.
Defined.

(** The claim C8 fails as stated: a response with status 300 is not a 2xx
    response, and [tags] returns its body as a result. *)
Lemma http_error_non_2xx_counterexample :
  ~ (200 <= status_code (Fixture.json_response 300 (JArr [])) < 300)%Z /\
  Forge.perform Fixture.repr Fixture.urljoin (Forge.Tags (Forge.Github Fixture.github))
    (Fixture.always (Fixture.json_response 300 (JArr []))) []
  = (Returned (Forge.Document (JArr [])),
     [{| url := "https://api.github.com/repos/owner/repo/tags"; auth := None |}]).
Proof.
  split; [simpl; lia|reflexivity].
Qed.

(** ** Forge-root discovery *)

Lemma strip_prefix_spec (p s r : string) :
  Re.strip_prefix p s = Some r <-> s = p ++ r.
Proof.
  revert s. induction p as [|a p IH]; intros s; simpl.
  - split; [now intros [= ->]|now intros ->].
  - destruct s as [|b s].
    + split; discriminate.
    + destruct (Ascii.eqb_spec a b) as [->|Hne].
      * rewrite IH. split; [now intros ->|now intros [= ->]].
      * split; [discriminate|]. intros [= E _]. now symmetry in E.
Qed.

Lemma match_lit (b s : string) :
  Re.match_here [Re.Lit b] s =
  match Re.strip_prefix b s with
  | Some _ => Some []
  | None => None
  end.
Proof. simpl. destruct (Re.strip_prefix b s); reflexivity. Qed.

Lemma match_star_cons (cls : ascii -> bool) (b : string) (c : ascii) (s : string) :
  Re.match_here [Re.GroupStar cls; Re.Lit b] (String c s) =
  if cls c
  then match Re.match_here [Re.GroupStar cls; Re.Lit b] s with
       | Some (g :: gs) => Some (String c g :: gs)
       | _ => option_map (cons EmptyString) (Re.match_here [Re.Lit b] (String c s))
       end
  else option_map (cons EmptyString) (Re.match_here [Re.Lit b] (String c s)).
Proof. reflexivity. Qed.

Lemma match_star_nil (cls : ascii -> bool) (b : string) :
  Re.match_here [Re.GroupStar cls; Re.Lit b] EmptyString =
  option_map (cons EmptyString) (Re.match_here [Re.Lit b] EmptyString).
Proof. reflexivity. Qed.

Lemma match_stop (b s : string) (gs : list string) :
  option_map (cons EmptyString) (Re.match_here [Re.Lit b] s) = Some gs ->
  gs = [EmptyString] /\ exists rest : string, s = b ++ rest.
Proof.
  rewrite match_lit. destruct (Re.strip_prefix b s) as [r|] eqn:E; [|discriminate].
  intros [= <-]. split; [reflexivity|]. exists r. now apply strip_prefix_spec.
Qed.

Lemma match_star_sound (cls : ascii -> bool) (b s : string) (gs : list string) :
  Re.match_here [Re.GroupStar cls; Re.Lit b] s = Some gs ->
  exists g rest : string,
    gs = [g] /\ s = g ++ b ++ rest /\ every cls g = true.
Proof.
  revert gs. induction s as [|c s IH]; intros gs.
  - rewrite match_star_nil. intros H. apply match_stop in H as (-> & rest & Hr).
    now exists "", rest.
  - rewrite match_star_cons.
    assert (Hstop : option_map (cons EmptyString) (Re.match_here [Re.Lit b] (String c s))
                    = Some gs ->
                    exists g rest : string,
                      gs = [g] /\ String c s = g ++ b ++ rest /\ every cls g = true).
    { intros H. apply match_stop in H as (-> & rest & Hr). now exists "", rest. }
    destruct (cls c) eqn:Hc; [|exact Hstop].
    destruct (Re.match_here [Re.GroupStar cls; Re.Lit b] s) as [[|g gs']|] eqn:E;
      try exact Hstop.
    intros [= <-]. destruct (IH _ eq_refl) as (g0 & rest & [= -> ->] & -> & Hg).
    exists (String c g0), rest. repeat split. simpl. now rewrite Hc, Hg.
Qed.

Lemma match_star_complete (cls : ascii -> bool) (b g rest : string) :
  every cls g = true ->
  exists g' : string,
    Re.match_here [Re.GroupStar cls; Re.Lit b] (g ++ b ++ rest) = Some [g'] /\
    String.length g <= String.length g'.
Proof.
  intros Hg.
  assert (Hstop : forall s, s = b ++ rest ->
                       option_map (cons EmptyString) (Re.match_here [Re.Lit b] s)
                       = Some [EmptyString]).
  { intros s ->. rewrite match_lit.
    now rewrite (proj2 (strip_prefix_spec b (b ++ rest) rest) eq_refl). }
  induction g as [|c g IH].
  - change ("" ++ b ++ rest) with (b ++ rest).
    destruct (b ++ rest) as [|c s] eqn:E.
    + rewrite match_star_nil, (Hstop _ eq_refl). exists "". split; [reflexivity|lia].
    + rewrite match_star_cons.
      destruct (cls c).
      * destruct (Re.match_here [Re.GroupStar cls; Re.Lit b] s) as [[|g gs']|] eqn:Es.
        -- rewrite (Hstop _ eq_refl). exists "". split; [reflexivity|lia].
        -- destruct (match_star_sound _ _ _ _ Es) as (g0 & r0 & [= -> ->] & _).
           exists (String c g0). split; [reflexivity|simpl; lia].
        -- rewrite (Hstop _ eq_refl). exists "". split; [reflexivity|lia].
      * rewrite (Hstop _ eq_refl). exists "". split; [reflexivity|lia].
  - simpl in Hg. apply andb_true_iff in Hg as [Hc Hg].
    destruct (IH Hg) as (g' & E & Hlen).
    change (String c g ++ b ++ rest) with (String c (g ++ b ++ rest)).
    rewrite match_star_cons, Hc, E. exists (String c g').
    split; [reflexivity|simpl; lia].
Qed.

Lemma match_marker_sound (a : string) (cls : ascii -> bool) (b s : string)
  (gs : list string) :
  Re.match_here [Re.Lit a; Re.GroupStar cls; Re.Lit b] s = Some gs ->
  exists g : string, gs = [g] /\ marked a cls b s "" g.
Proof.
  change (Re.match_here [Re.Lit a; Re.GroupStar cls; Re.Lit b] s)
    with (match Re.strip_prefix a s with
          | Some s' => Re.match_here [Re.GroupStar cls; Re.Lit b] s'
          | None => None
          end).
  destruct (Re.strip_prefix a s) as [s'|] eqn:E; [|discriminate].
  apply strip_prefix_spec in E. subst s. intros H.
  apply match_star_sound in H as (g & rest & -> & -> & Hg).
  exists g. split; [reflexivity|]. exists rest. now split.
Qed.

Lemma match_marker_complete (a : string) (cls : ascii -> bool) (b s g : string) :
  marked a cls b s "" g ->
  exists g' : string,
    Re.match_here [Re.Lit a; Re.GroupStar cls; Re.Lit b] s = Some [g'] /\
    String.length g <= String.length g'.
Proof.
  intros (rest & -> & Hg).
  change (Re.match_here [Re.Lit a; Re.GroupStar cls; Re.Lit b]
            ("" ++ a ++ g ++ b ++ rest))
    with (match Re.strip_prefix a (a ++ g ++ b ++ rest) with
          | Some s' => Re.match_here [Re.GroupStar cls; Re.Lit b] s'
          | None => None
          end).
  rewrite (proj2 (strip_prefix_spec a _ (g ++ b ++ rest)) eq_refl).
  now apply match_star_complete.
Qed.

Lemma marked_tail (a : string) (cls : ascii -> bool) (b : string)
  (c d : ascii) (s before g : string) :
  marked a cls b (String c s) (String d before) g -> marked a cls b s before g.
Proof.
  intros (rest & E & Hg). simpl in E. injection E as _ E.
  exists rest. now split.
Qed.

Lemma marked_cons (a : string) (cls : ascii -> bool) (b : string)
  (c : ascii) (s before g : string) :
  marked a cls b s before g -> marked a cls b (String c s) (String c before) g.
Proof.
  intros (rest & E & Hg). exists rest. split; [|exact Hg]. simpl. now rewrite <- E.
Qed.

Lemma search_marker (a : string) (cls : ascii -> bool) (b s : string) :
  match Re.search [Re.Lit a; Re.GroupStar cls; Re.Lit b] s with
  | Some gs => exists g : string, gs = [g] /\ leftmost_longest a cls b s g
  | None => forall before g : string, ~ marked a cls b s before g
  end.
Proof.
  induction s as [|c s IH].
  - change (Re.search [Re.Lit a; Re.GroupStar cls; Re.Lit b] "")
      with (match Re.match_here [Re.Lit a; Re.GroupStar cls; Re.Lit b] "" with
            | Some gs => Some gs
            | None => None
            end).
    destruct (Re.match_here [Re.Lit a; Re.GroupStar cls; Re.Lit b] "") as [gs|] eqn:E.
    + pose proof E as E0.
      apply match_marker_sound in E as (g & -> & Hm).
      exists g. split; [reflexivity|]. exists "". split; [exact Hm|].
      intros before' g' Hm'. split; [simpl; lia|].
      intros Hlen. destruct before'; [|discriminate].
      destruct (match_marker_complete _ _ _ _ _ Hm') as (g1 & E1 & Hle).
      rewrite E0 in E1. injection E1 as <-. exact Hle.
    + intros before g Hm.
      assert (before = "") as ->.
      { destruct Hm as (rest & Hnil & _). destruct before; [reflexivity|discriminate]. }
      destruct (match_marker_complete _ _ _ _ _ Hm) as (g' & E' & _). congruence.
  - change (Re.search [Re.Lit a; Re.GroupStar cls; Re.Lit b] (String c s))
      with (match Re.match_here [Re.Lit a; Re.GroupStar cls; Re.Lit b] (String c s) with
            | Some gs => Some gs
            | None => Re.search [Re.Lit a; Re.GroupStar cls; Re.Lit b] s
            end).
    destruct (Re.match_here [Re.Lit a; Re.GroupStar cls; Re.Lit b] (String c s))
      as [gs|] eqn:E.
    + pose proof E as E0.
      apply match_marker_sound in E as (g & -> & Hm).
      exists g. split; [reflexivity|]. exists "". split; [exact Hm|].
      intros before' g' Hm'. split; [simpl; lia|].
      intros Hlen. destruct before'; [|discriminate].
      destruct (match_marker_complete _ _ _ _ _ Hm') as (g1 & E1 & Hle).
      rewrite E0 in E1. injection E1 as <-. exact Hle.
    + assert (Hfirst : forall g, ~ marked a cls b (String c s) "" g).
      { intros g Hm. destruct (match_marker_complete _ _ _ _ _ Hm) as (g' & E' & _).
        congruence. }
      destruct (Re.search [Re.Lit a; Re.GroupStar cls; Re.Lit b] s) as [gs|].
      * destruct IH as (g & -> & before & Hm & Hleast).
        exists g. split; [reflexivity|]. exists (String c before).
        split; [now apply marked_cons|].
        intros before' g' Hm'. destruct before' as [|d before'].
        -- now apply Hfirst in Hm'.
        -- apply marked_tail in Hm'. destruct (Hleast _ _ Hm') as [H1 H2].
           split; [simpl; lia|]. intros Hlen. apply H2. simpl in Hlen. lia.
      * intros before g Hm. destruct before as [|d before].
        -- now apply Hfirst in Hm.
        -- apply marked_tail in Hm. now apply IH in Hm.
Qed.

Lemma replace_backslash_cons (c : ascii) (s : string) :
  Str.replace "\" "" (String c s) =
  if Ascii.eqb c "\" then Str.replace "\" "" s else String c (Str.replace "\" "" s).
Proof.
  unfold Str.replace. simpl.
  destruct (Ascii.eqb c "\"); reflexivity.
Qed.

Lemma replace_backslash_free (s : string) :
  Str.mem "\" (Str.replace "\" "" s) = false.
Proof.
  induction s as [|c s IH]; [reflexivity|].
  rewrite replace_backslash_cons.
  destruct (Ascii.eqb c "\") eqn:Hc; [exact IH|].
  simpl. now rewrite (Ascii.eqb_sym "\" c), Hc, IH.
Qed.

Lemma replace_backslash_id (s : string) :
  Str.mem "\" s = false -> Str.replace "\" "" s = s.
Proof.
  induction s as [|c s IH]; [reflexivity|].
  simpl. intros H. apply orb_false_iff in H as [Hc Hs].
  rewrite replace_backslash_cons, (Ascii.eqb_sym c "\"), Hc, (IH Hs). reflexivity.
Qed.

(** C5, as the code has it.  Once the page is fetched, discovery of a
    GitLab root returns the text between the leftmost "const url = `" that
    opens a marker and the last "/api/graphql`" of that line, as it stands in
    the page; discovery of a Gitea/Forgejo root returns the text between the
    leftmost "appUrl: '" that opens a marker and the "'," closing it, with
    every backslash removed (and nothing else, when there is no backslash).
    Each fails with the assertion error (the spec's DiscoveryError) exactly
    when the page holds no such marker. *)
Theorem forge_root_discovery :
  forall (u : string) (t : transport) (log : list request) (r : response),
    fetched (t log (page_request u)) = Returned r ->
    ((exists g : string,
         GitlabAPI.get_forge_root u t log = (Returned g, (log ++ [page_request u])%list) /\
         leftmost_longest "const url = `" Re.dot "/api/graphql`" (text r) g)
     \/
     (GitlabAPI.get_forge_root u t log =
      (Raised (AssertionError None), (log ++ [page_request u])%list) /\
      forall before g : string,
        ~ marked "const url = `" Re.dot "/api/graphql`" (text r) before g))
    /\
    ((exists g : string,
         GiteaForgejoAPI.get_forge_root u t log =
         (Returned (Str.replace "\" "" g), (log ++ [page_request u])%list) /\
         leftmost_longest "appUrl: '" Re.not_quote "'," (text r) g /\
         Str.mem "\" (Str.replace "\" "" g) = false /\
         (Str.mem "\" g = false -> Str.replace "\" "" g = g))
     \/
     (GiteaForgejoAPI.get_forge_root u t log =
      (Raised (AssertionError None), (log ++ [page_request u])%list) /\
      forall before g : string,
        ~ marked "appUrl: '" Re.not_quote "'," (text r) before g)).
Proof.
  intros u t log r Hr. split.
  - unfold GitlabAPI.get_forge_root. rewrite page_call, Hr.
    pose proof (search_marker "const url = `" Re.dot "/api/graphql`" (text r)) as H.
    fold GitlabAPI.pattern in H.
    destruct (Re.search GitlabAPI.pattern (text r)) as [gs|].
    + left. destruct H as (g & -> & Hg). exists g. split; [reflexivity|exact Hg].
    + right. split; [reflexivity|exact H].
  - unfold GiteaForgejoAPI.get_forge_root. rewrite page_call, Hr.
    pose proof (search_marker "appUrl: '" Re.not_quote "'," (text r)) as H.
    fold GiteaForgejoAPI.pattern in H.
    destruct (Re.search GiteaForgejoAPI.pattern (text r)) as [gs|].
    + left. destruct H as (g & -> & Hg). exists g.
      split; [reflexivity|]. split; [exact Hg|].
      split; [apply replace_backslash_free|apply replace_backslash_id].
    + right. split; [reflexivity|exact H].
Qed.

Lemma forge_root_discovery_witness :
  GitlabAPI.get_forge_root "https://gitlab.example/group/project"
    (Fixture.always Fixture.gitlab_page) []
  = (Returned "https://gitlab.example",
     [page_request "https://gitlab.example/group/project"]) /\
  GiteaForgejoAPI.get_forge_root "https://gitea.example/owner/repo"
    (Fixture.always Fixture.gitea_page) []
  = (Returned "https://gitea.example/",
     [page_request "https://gitea.example/owner/repo"]) /\
  ((exists g : string,
       GitlabAPI.get_forge_root "https://gitlab.example/group/project"
         (Fixture.always Fixture.gitlab_page) []
       = (Returned g, [page_request "https://gitlab.example/group/project"]) /\
       leftmost_longest "const url = `" Re.dot "/api/graphql`"
         (text Fixture.gitlab_page) g)
   \/
   (GitlabAPI.get_forge_root "https://gitlab.example/group/project"
      (Fixture.always Fixture.gitlab_page) []
    = (Raised (AssertionError None),
       [page_request "https://gitlab.example/group/project"]) /\
    forall before g : string,
      ~ marked "const url = `" Re.dot "/api/graphql`"
          (text Fixture.gitlab_page) before g)).
Proof.
  split; [reflexivity|]. split; [reflexivity|].
  exact (proj1 (forge_root_discovery "https://gitlab.example/group/project"
                  (Fixture.always Fixture.gitlab_page) [] Fixture.gitlab_page eq_refl)).
Defined.

(** The claim C5 fails as stated: the GitLab discovery returns the matched
    text with its backslashes. *)
Lemma forge_root_escapes_counterexample :
  GitlabAPI.get_forge_root "https://gitlab.example/group/project"
    (Fixture.always Fixture.gitlab_page_escaped) []
  = (Returned "https:\/\/gitlab.example",
     [page_request "https://gitlab.example/group/project"]) /\
  Str.mem "\" "https:\/\/gitlab.example" = true.
Proof. split; reflexivity. Qed.

(** ** The links of a download page *)

Section Dict.

Variables K V : Type.
Variable eqb : K -> K -> bool.
Hypothesis eqb_spec : forall a b : K, eqb a b = true <-> a = b.

Lemma eqb_refl_of_spec (k : K) : eqb k k = true.
Proof. now apply eqb_spec. Qed.

Lemma eqb_false_of_spec (a b : K) : a <> b -> eqb a b = false.
Proof.
  intros H. destruct (eqb a b) eqn:E; [|reflexivity].
  apply eqb_spec in E. contradiction.
Qed.

Lemma get_setitem_same (k : K) (v : V) (d : list (K * V)) :
  Py.find eqb k (Py.setitem eqb k v d) = Some v.
Proof.
  induction d as [|[k' v'] d IH]; simpl.
  - now rewrite eqb_refl_of_spec.
  - destruct (eqb k k') eqn:E; simpl.
    + now rewrite eqb_refl_of_spec.
    + now rewrite E.
Qed.

Lemma get_setitem_other (k k' : K) (v : V) (d : list (K * V)) :
  k' <> k -> Py.find eqb k' (Py.setitem eqb k v d) = Py.find eqb k' d.
Proof.
  intros Hne. induction d as [|[k0 v0] d IH]; simpl.
  - now rewrite (eqb_false_of_spec _ _ Hne).
  - destruct (eqb k k0) eqn:E; simpl.
    + apply eqb_spec in E. subst k0.
      now rewrite (eqb_false_of_spec _ _ Hne).
    + now rewrite IH.
Qed.

Lemma in_setitem (k : K) (v : V) (d : list (K * V)) (e : K * V) :
  In e (Py.setitem eqb k v d) -> e = (k, v) \/ In e d.
Proof.
  induction d as [|[k' v'] d IH]; simpl.
  - intros [<-|[]]. now left.
  - destruct (eqb k k'); simpl.
    + intros [<-|H]; [now left|now right; right].
    + intros [<-|H]; [now right; left|].
      destruct (IH H) as [->|H']; [now left|now right; right].
Qed.

Lemma keys_setitem (k : K) (v : V) (d : list (K * V)) (k' : K) :
  In k' (map fst (Py.setitem eqb k v d)) <-> k' = k \/ In k' (map fst d).
Proof.
  induction d as [|[k0 v0] d IH]; simpl.
  - intuition.
  - destruct (eqb k k0) eqn:E; simpl.
    + apply eqb_spec in E. subst k0. intuition.
    + rewrite IH. intuition.
Qed.

Lemma nodup_setitem (k : K) (v : V) (d : list (K * V)) :
  NoDup (map fst d) -> NoDup (map fst (Py.setitem eqb k v d)).
Proof.
  induction d as [|[k0 v0] d IH]; simpl; intros H.
  - constructor; [intros []|constructor].
  - inversion H as [|? ? Hnotin Hd]; subst.
    destruct (eqb k k0) eqn:E; simpl.
    + apply eqb_spec in E. subst k0. now constructor.
    + constructor; [|now apply IH].
      rewrite keys_setitem. intros [->|Hin]; [|contradiction].
      now rewrite eqb_refl_of_spec in E.
Qed.

Lemma get_fold_other (k : K) (es : list (K * V)) (d : list (K * V)) :
  (forall e, In e es -> fst e <> k) ->
  Py.find eqb k (fold_left (Py.update eqb) es d) = Py.find eqb k d.
Proof.
  revert d. induction es as [|e es IH]; intros d H; simpl; [reflexivity|].
  rewrite IH by (intros e' He'; apply H; now right).
  unfold Py.update. apply get_setitem_other.
  intros E. apply (H e); [now left|now symmetry].
Qed.

Lemma get_fold_last (k : K) (v : V) (before after d : list (K * V)) :
  (forall e, In e after -> fst e <> k) ->
  Py.find eqb k (fold_left (Py.update eqb) (before ++ (k, v) :: after) d) = Some v.
Proof.
  intros H. rewrite fold_left_app. simpl.
  rewrite (get_fold_other _ _ _ H). unfold Py.update at 1. simpl.
  apply get_setitem_same.
Qed.

Lemma in_fold (es d : list (K * V)) (e : K * V) :
  In e (fold_left (Py.update eqb) es d) -> In e es \/ In e d.
Proof.
  revert d. induction es as [|e0 es IH]; intros d; simpl; [now right|].
  intros H. destruct (IH _ H) as [H'|H']; [now left; right|].
  unfold Py.update in H'. destruct (in_setitem _ _ _ _ H') as [->|H''].
  - left. left. now destruct e0.
  - now right.
Qed.

Lemma keys_fold (es d : list (K * V)) (k : K) :
  In k (map fst (fold_left (Py.update eqb) es d)) <-> In k (map fst es) \/ In k (map fst d).
Proof.
  revert d. induction es as [|e es IH]; intros d; simpl; [intuition|].
  rewrite IH. unfold Py.update at 1. rewrite keys_setitem. intuition.
Qed.

Lemma nodup_fold (es d : list (K * V)) :
  NoDup (map fst d) -> NoDup (map fst (fold_left (Py.update eqb) es d)).
Proof.
  revert d. induction es as [|e es IH]; intros d H; simpl; [exact H|].
  apply IH. unfold Py.update. now apply nodup_setitem.
Qed.

Lemma get_in_keys (k : K) (d : list (K * V)) :
  In k (map fst d) -> exists v : V, Py.find eqb k d = Some v.
Proof.
  induction d as [|[k' v'] d IH]; simpl; [intros []|].
  intros [->|H].
  - rewrite eqb_refl_of_spec. now exists v'.
  - destruct (eqb k k'); [now exists v'|now apply IH].
Qed.

End Dict.

Lemma key_eqb_spec (a b : option string) :
  DownloadPageAPI.key_eqb a b = true <-> a = b.
Proof.
  destruct a as [x|], b as [y|]; simpl; try (split; [discriminate|discriminate]).
  - rewrite String.eqb_eq. split; [now intros ->|now intros [= ->]].
  - split; reflexivity.
Qed.

Lemma link_entry_returned (urljoin : string -> option string -> outcome string)
  (base : string) (link : node) (e : option string * string) :
  link_entry urljoin base link = Returned e <->
  fst e = Soup.string_of link /\ urljoin base (Soup.get link "href") = Returned (snd e).
Proof.
  unfold link_entry. destruct (urljoin base (Soup.get link "href")) as [x|v]; simpl.
  - split; [discriminate|]. intros [_ H]. discriminate.
  - destruct e as [k v']. simpl. split.
    + intros [= <- <-]. auto.
    + intros [-> [= ->]]. reflexivity.
Qed.

Lemma link_dict_from_returned (urljoin : string -> option string -> outcome string)
  (base : string) (links : list node) (d0 d : list (option string * string)) :
  DownloadPageAPI.link_dict_from urljoin base d0 links = Returned d <->
  exists es : list (option string * string),
    Forall2 (fun link e => link_entry urljoin base link = Returned e) links es /\
    d = fold_left (Py.update DownloadPageAPI.key_eqb) es d0.
Proof.
  revert d0. induction links as [|link links IH]; intros d0; simpl.
  - split.
    + intros [= <-]. exists []. split; [constructor|reflexivity].
    + intros (es & F & ->). inversion F. reflexivity.
  - rewrite obind_returned. split.
    + intros (target & Ht & H). apply IH in H as (es & F & ->).
      exists ((Soup.string_of link, target) :: es). split; [|reflexivity].
      constructor; [|exact F]. apply link_entry_returned. auto.
    + intros (es & F & ->). inversion F as [|? e ? es' He F']; subst.
      apply link_entry_returned in He as [Hk Hv].
      exists (snd e). split; [exact Hv|]. apply IH. exists es'.
      split; [exact F'|]. simpl. unfold Py.update at 2. now rewrite Hk.
Qed.

Lemma link_dict_from_raised (urljoin : string -> option string -> outcome string)
  (base : string) (before after : list node) (bad : node) (e : exception)
  (d0 : list (option string * string)) :
  Forall (fun link => exists v : string,
              urljoin base (Soup.get link "href") = Returned v) before ->
  urljoin base (Soup.get bad "href") = Raised e ->
  DownloadPageAPI.link_dict_from urljoin base d0 (before ++ bad :: after) = Raised e.
Proof.
  intros Hb He. revert d0.
  induction Hb as [|link before (v & Hv) _ IH]; intros d0; simpl.
  - now rewrite He.
  - rewrite Hv. simpl. apply IH.
Qed.

Lemma link_entries_exist (urljoin : string -> option string -> outcome string)
  (base : string) (links : list node) :
  Forall (fun link => exists v : string,
              urljoin base (Soup.get link "href") = Returned v) links ->
  exists es : list (option string * string),
    Forall2 (fun link e => link_entry urljoin base link = Returned e) links es.
Proof.
  intros H. induction H as [|link links (v & Hv) _ (es & IH)].
  - exists []. constructor.
  - exists ((Soup.string_of link, v) :: es). constructor; [|exact IH].
    apply link_entry_returned. auto.
Qed.

Lemma link_entries_keys (urljoin : string -> option string -> outcome string)
  (base : string) (links : list node) (es : list (option string * string)) :
  Forall2 (fun link e => link_entry urljoin base link = Returned e) links es ->
  map fst es = map Soup.string_of links.
Proof.
  intros F. induction F as [|link e links es He _ IH]; simpl; [reflexivity|].
  apply link_entry_returned in He as [-> _]. now rewrite IH.
Qed.

Lemma web_page_links_run (urljoin : string -> option string -> outcome string)
  (self : DownloadPageAPI.t) (t : transport) (log : list request) (r : response) :
  fetched (t log (page_request (DownloadPageAPI.web_page self))) = Returned r ->
  DownloadPageAPI.get_web_page_links urljoin self t log =
  (DownloadPageAPI.link_dict urljoin (DownloadPageAPI.web_page self)
     (Soup.find_all "a" (html r)),
   (log ++ [page_request (DownloadPageAPI.web_page self)])%list).
Proof.
  intros Hr. unfold DownloadPageAPI.get_web_page_links. rewrite page_call, Hr.
  reflexivity.
Qed.

(** C2, as the code has it.  Once the page is fetched, [get_web_page_links]
    goes through the [a] tags of the page in order and fails with the
    exception of [urljoin] at the first tag whose target [urljoin] refuses;
    it returns a dict when [urljoin] returns for every tag.  The dict then
    has the [string] of every [a] tag as a key, [None] when the tag has no
    single text in it; every item is the [string] of some [a] tag with what
    [urljoin] returns for the page's URL and the tag's [href], [None] when
    the tag has none; the value under a key is that of the last tag with
    this key; no key occurs twice.  A page whose only anchor is
    [<a href="t">n</a>] gives the single item [n: urljoin(base, t)]. *)
Theorem web_page_links_of_anchors :
  forall (urljoin : string -> option string -> outcome string)
         (self : DownloadPageAPI.t) (t : transport) (log : list request)
         (r : response),
    fetched (t log (page_request (DownloadPageAPI.web_page self))) = Returned r ->
    let anchors := Soup.find_all "a" (html r) in
    let base := DownloadPageAPI.web_page self in
    let resolves (link : node) :=
      exists v : string, urljoin base (Soup.get link "href") = Returned v in
    (Forall resolves anchors ->
     exists d : list (option string * string),
       DownloadPageAPI.get_web_page_links urljoin self t log =
       (Returned d, (log ++ [page_request base])%list)) /\
    (forall (before after : list node) (bad : node) (e : exception),
        anchors = (before ++ bad :: after)%list ->
        Forall resolves before ->
        urljoin base (Soup.get bad "href") = Raised e ->
        DownloadPageAPI.get_web_page_links urljoin self t log =
        (Raised e, (log ++ [page_request base])%list)) /\
    (forall (d : list (option string * string)) (log' : list request),
        DownloadPageAPI.get_web_page_links urljoin self t log = (Returned d, log') ->
        log' = (log ++ [page_request base])%list /\
        Forall resolves anchors /\
        (forall link : node,
            In link anchors ->
            exists v : string,
              Py.find DownloadPageAPI.key_eqb (Soup.string_of link) d = Some v) /\
        (forall (k : option string) (v : string),
            In (k, v) d ->
            exists link : node,
              In link anchors /\ k = Soup.string_of link /\
              urljoin base (Soup.get link "href") = Returned v) /\
        (forall (before after : list node) (link : node),
            anchors = (before ++ link :: after)%list ->
            (forall other : node,
                In other after -> Soup.string_of other <> Soup.string_of link) ->
            exists v : string,
              urljoin base (Soup.get link "href") = Returned v /\
              Py.find DownloadPageAPI.key_eqb (Soup.string_of link) d = Some v) /\
        NoDup (map fst d)) /\
    (forall name target v : string,
        anchors = [Element "a" [("href", target)] [Text name]] ->
        urljoin base (Some target) = Returned v ->
        DownloadPageAPI.get_web_page_links urljoin self t log =
        (Returned [(Some name, v)], (log ++ [page_request base])%list)).
Proof.
  intros urljoin self t log r Hr anchors base resolves.
  rewrite (web_page_links_run urljoin self t log r Hr).
  fold anchors base. unfold DownloadPageAPI.link_dict.
  split; [|split; [|split]].
  - intros Hall. destruct (link_entries_exist urljoin base anchors Hall) as (es & F).
    exists (fold_left (Py.update DownloadPageAPI.key_eqb) es []).
    f_equal. apply link_dict_from_returned. now exists es.
  - intros before after bad e E Hb He. rewrite E.
    now rewrite (link_dict_from_raised urljoin base before after bad e [] Hb He).
  - intros d log' [= H <-]. apply link_dict_from_returned in H as (es & F & ->).
    pose proof (link_entries_keys _ _ _ _ F) as Hkeys.
    split; [reflexivity|]. repeat apply conj.
    + clear Hkeys. induction F as [|link e links es He _ IH]; constructor; [|exact IH].
      apply link_entry_returned in He as [_ Hv]. now exists (snd e).
    + intros link Hin. apply (get_in_keys _ _ _ key_eqb_spec).
      apply keys_fold; [exact key_eqb_spec|]. left.
      rewrite Hkeys. now apply in_map.
    + intros k v Hin. apply in_fold in Hin as [Hin|[]].
      clear Hkeys. induction F as [|link e links es He _ IH]; [destruct Hin|].
      destruct Hin as [->|Hin].
      * apply link_entry_returned in He as [Hk Hv]. simpl in Hk, Hv.
        exists link. split; [now left|]. split; [exact Hk|exact Hv].
      * destruct (IH Hin) as (link' & Hin' & Hk & Hv).
        exists link'. split; [now right|]. split; [exact Hk|exact Hv].
    + intros before after link E Hlast. rewrite E in F.
      apply Forall2_app_inv_l in F as (es1 & es2 & F1 & F2 & ->).
      inversion F2 as [|? e ? es3 He F3]; subst.
      apply link_entry_returned in He as [Hk Hv].
      exists (snd e). split; [exact Hv|].
      rewrite <- Hk. destruct e as [k v]. simpl.
      apply (get_fold_last _ _ _ key_eqb_spec).
      intros e' He'. simpl in Hk. rewrite Hk.
      pose proof (link_entries_keys _ _ _ _ F3) as Hkeys3.
      assert (Hin : In (fst e') (map Soup.string_of after)).
      { rewrite <- Hkeys3. now apply in_map. }
      apply in_map_iff in Hin as (other & <- & Ho). now apply Hlast.
    + apply (nodup_fold _ _ _ key_eqb_spec). constructor.
  - intros name target v E Hv. rewrite E. simpl. rewrite Hv. reflexivity.
Qed.

Lemma web_page_links_of_anchors_witness :
  fetched (Fixture.always Fixture.name_page []
             (page_request (DownloadPageAPI.web_page Fixture.downloads)))
  = Returned Fixture.name_page /\
  Fixture.urljoin "http://h/dir/" (Some "/x") = Returned "http://h/x" /\
  DownloadPageAPI.get_web_page_links Fixture.urljoin Fixture.downloads
    (Fixture.always Fixture.name_page) []
  = (Returned [(Some "Name", "http://h/x")], [page_request "http://h/dir/"]).
Proof.
  split; [reflexivity|]. split; [reflexivity|].
  apply (proj2 (proj2 (proj2
           (web_page_links_of_anchors Fixture.urljoin Fixture.downloads
              (Fixture.always Fixture.name_page) [] Fixture.name_page eq_refl)))
           "Name" "/x" "http://h/x" eq_refl eq_refl).
Defined.

(** The claim C2 fails as stated: the anchor with no text and the anchor
    with no target are both in the dict that is returned, the first under
    the key [None], the second with the URL of the page. *)
Lemma web_page_links_skip_counterexample :
  Soup.string_of Fixture.image_anchor = None /\
  Soup.get Fixture.place_anchor "href" = None /\
  DownloadPageAPI.get_web_page_links Fixture.urljoin Fixture.downloads
    (Fixture.always Fixture.download_page) []
  = (Returned [(Some "Name", "http://h/x"); (None, "http://h/y");
               (Some "Top", "http://h/dir/")],
     [page_request "http://h/dir/"]).
Proof. repeat split. Qed.

(** ** The fixtures of the specification *)

Example strip_both_ends : Str.strip "/" "//a/b/" = "a/b".
Proof. reflexivity. Qed.

Example replace_every_occurrence : Str.replace "aa" "b" "aaaxaa" = "baxb".
Proof. reflexivity. Qed.

Example replace_empty_old : Str.replace "" "-" "ab" = "-a-b-".
Proof. reflexivity. Qed.

Example split_keeps_empty_segments : Str.split "/" "a//b/" = ["a"; ""; "b"; ""].
Proof. reflexivity. Qed.

Example github_release_unmodified :
  let native :=
    JArr [JObj [("tag_name", JStr "v1.0");
                ("assets", JArr [JObj [("name", JStr "a.zip");
                                       ("browser_download_url", JStr "http://x/a.zip")]])]] in
  GithubAPI.releases Fixture.github (Fixture.always (Fixture.json_response 200 native)) []
  = (Returned native,
     [{| url := "https://api.github.com/repos/owner/repo/releases?per_page=100";
         auth := None |}]).
Proof. reflexivity. Qed.

Example gitlab_commit_remapped_fixture :
  GitlabAPI.commits Fixture.repr Fixture.gitlab
    (Fixture.always
       (Fixture.json_response 200
          (JArr [JObj [("id", JStr "abc123");
                       ("committed_date", JStr "2024-01-01T00:00:00Z")]]))) []
  = (Returned (JArr [JObj [("sha", JStr "abc123");
                           ("commit",
                            JObj [("author",
                                   JObj [("date", JStr "2024-01-01T00:00:00Z")])])]]),
     [{| url := "https://gitlab.example/api/v4/projects/42/repository/commits";
         auth := None |}]).
Proof. reflexivity. Qed.

Example gitea_tip_of_branch_fixture :
  GiteaForgejoAPI.tip_of_branch Fixture.gitea "main"
    (Fixture.always
       (Fixture.json_response 200
          (JObj [("name", JStr "main"); ("commit", Fixture.gitea_native_commit)]))) []
  = (Returned (JObj [("sha", JStr "deadbeef");
                     ("commit",
                      JObj [("author", JObj [("date", JStr "2024-06-01T00:00:00Z")])])]),
     [{| url := "https://gitea.example/api/v1/repos/owner/repo/branches/main";
         auth := None |}]).
Proof. reflexivity. Qed.

Example gitlab_init_fixture :
  GitlabAPI.init "https://gitlab.example/group/project"
    (fun log req =>
       if String.eqb (url req) "https://gitlab.example/group/project"
       then Returned Fixture.gitlab_page
       else Fixture.buggy_gitlab log req) []
  = (Returned Fixture.gitlab,
     [{| url := "https://gitlab.example/group/project"; auth := None |};
      {| url := "https://gitlab.example/api/v4/projects/group%2Fproject"; auth := None |};
      {| url := "https://gitlab.example/api/v4/projects?search=project"; auth := None |}]).
Proof. reflexivity. Qed.

Example malformed_target_fails :
  DownloadPageAPI.get_web_page_links Fixture.urljoin Fixture.downloads
    (Fixture.always Fixture.broken_page) []
  = (Raised ValueError, [page_request "http://h/dir/"]).
Proof. reflexivity. Qed.

Example network_path_resolved :
  Fixture.urljoin "http://h/dir/" (Some "//cdn.example/a.zip")
  = Returned "http://cdn.example/a.zip".
Proof. reflexivity. Qed.

Example relative_target_resolved :
  Fixture.urljoin "http://h/dir/page.html" (Some "file.tar.gz")
  = Returned "http://h/dir/file.tar.gz".
Proof. reflexivity. Qed.

Example gitlab_greedy_marker :
  Re.search GitlabAPI.pattern "const url = `a/api/graphql`; const url = `b/api/graphql`"
  = Some ["a/api/graphql`; const url = `b"].
Proof. reflexivity. Qed.

(** * Further properties *)

(** ** One request for each operation *)

Ltac run_adapter a :=
  destruct a as [?self|?self|?self];
  cbn [Forge.tags Forge.commits Forge.tip_of_branch Forge.releases];
  unfold GithubAPI.tags, GithubAPI.commits, GithubAPI.releases,
    GitlabAPI.tags, GiteaForgejoAPI.tags, GiteaForgejoAPI.commits,
    GiteaForgejoAPI.releases;
  first [ rewrite github_internal_api_run
        | rewrite gitlab_internal_api_run
        | rewrite gitea_internal_api_run
        | rewrite gitlab_commits_run
        | rewrite gitlab_releases_run
        | rewrite gitlab_tip_of_branch_run
        | rewrite (github_tip_of_branch_run (fun _ => ""))
        | rewrite (gitea_tip_of_branch_run (fun _ => "")) ].

Ltac run_operation op :=
  destruct op as [a|a|a branch|a|u|u|self]; cbn [Forge.perform];
  rewrite returning_run;
  [ run_adapter a | run_adapter a | run_adapter a | run_adapter a
  | unfold GitlabAPI.get_forge_root; rewrite page_call
  | unfold GiteaForgejoAPI.get_forge_root; rewrite page_call
  | unfold DownloadPageAPI.get_web_page_links; rewrite page_call ].

Lemma operation_log (repr : json -> string)
  (urljoin : string -> option string -> outcome string) (op : Forge.operation)
  (t : transport) (log : list request) :
  snd (Forge.perform repr urljoin op t log) =
  (log ++ [Forge.request_of repr op])%list.
Proof.
  run_operation op; try reflexivity.
  - cbn [Forge.request_of]. fold (page_request u).
    destruct (fetched (t log (page_request u))) as [e|r]; [reflexivity|].
    destruct (Re.search GitlabAPI.pattern (text r)); reflexivity.
  - cbn [Forge.request_of]. fold (page_request u).
    destruct (fetched (t log (page_request u))) as [e|r]; [reflexivity|].
    destruct (Re.search GiteaForgejoAPI.pattern (text r)); reflexivity.
  - cbn [Forge.request_of]. fold (page_request (DownloadPageAPI.web_page self)).
    destruct (fetched (t log (page_request (DownloadPageAPI.web_page self))));
      reflexivity.
Qed.

(** X1: every operation sends exactly one request, the same whatever the
    transport answers: no operation retries, follows up or stays silent. *)
Theorem one_request_per_operation :
  forall (repr : json -> string) (urljoin : string -> option string -> outcome string)
         (op : Forge.operation) (t : transport) (log : list request),
    snd (Forge.perform repr urljoin op t log) =
    (log ++ [Forge.request_of repr op])%list.
Proof.
  intros repr urljoin op t log. apply operation_log.
Qed.

(** X2: an exception of the transport (no connection, a timeout) comes out
    of every operation as it is. *)
Theorem transport_exception_propagated :
  forall (repr : json -> string) (urljoin : string -> option string -> outcome string)
         (op : Forge.operation) (t : transport) (log : list request) (e : exception),
    t log (Forge.request_of repr op) = Raised e ->
    Forge.perform repr urljoin op t log =
    (Raised e, (log ++ [Forge.request_of repr op])%list).
Proof.
  intros repr urljoin op t log e H.
  run_operation op;
    try (simpl in H |- *; rewrite H; reflexivity);
    simpl in H; unfold page_request; rewrite H; reflexivity.
Qed.

Lemma transport_exception_propagated_witness :
  Forge.perform Fixture.repr Fixture.urljoin
    (Forge.Releases (Forge.Gitlab Fixture.gitlab)) (fun _ _ => Raised ConnectionError) []
  = (Raised ConnectionError,
     [{| url := "https://gitlab.example/api/v4/projects/42/releases"; auth := None |}]).
Proof.
  apply (transport_exception_propagated Fixture.repr Fixture.urljoin
           (Forge.Releases (Forge.Gitlab Fixture.gitlab))
           (fun _ _ => Raised ConnectionError) [] ConnectionError).
  reflexivity.
Defined.

(** X3: when the answer to [tags], [commits], [tip_of_branch] or [releases]
    has a status outside 400 to 599 and a body that is not JSON, the
    operation fails with [JSONDecodeError]. *)
Theorem non_json_body_fails :
  forall (repr : json -> string) (urljoin : string -> option string -> outcome string)
         (op : Forge.operation) (t : transport) (log : list request) (r : response),
    api_operation op = true ->
    t log (Forge.request_of repr op) = Returned r ->
    ~ (400 <= status_code r < 600)%Z ->
    json_body r = None ->
    Forge.perform repr urljoin op t log =
    (Raised JSONDecodeError, (log ++ [Forge.request_of repr op])%list).
Proof.
  intros repr urljoin op t log r Hop H Hs Hj.
  assert (Hd : decoded (t log (Forge.request_of repr op)) = Raised JSONDecodeError).
  { rewrite H. unfold decoded. rewrite Hj.
    destruct ((400 <=? status_code r) && (status_code r <? 600))%Z eqn:E;
      [|reflexivity].
    apply andb_true_iff in E as [E1 E2].
    apply Z.leb_le in E1. apply Z.ltb_lt in E2. lia. }
  clear H Hs Hj.
  run_operation op; try discriminate Hop;
    simpl in Hd |- *; rewrite Hd; reflexivity.
Qed.

Lemma non_json_body_fails_witness :
  Forge.perform Fixture.repr Fixture.urljoin
    (Forge.Tags (Forge.GiteaForgejo Fixture.gitea))
    (Fixture.always Fixture.gitea_page) []
  = (Raised JSONDecodeError,
     [{| url := "https://gitea.example/api/v1/repos/owner/repo/tags"; auth := None |}]).
Proof.
  apply (non_json_body_fails Fixture.repr Fixture.urljoin
           (Forge.Tags (Forge.GiteaForgejo Fixture.gitea))
           (Fixture.always Fixture.gitea_page) [] Fixture.gitea_page);
    [reflexivity|reflexivity|simpl; lia|reflexivity].
Defined.

(** X4: the credentials of an adapter go to api.github.com and nowhere
    else: a request that an operation adds to the log with credentials in it
    is a request of the GitHub adapter, carries that adapter's credentials
    and has a URL under "https://api.github.com/". *)
Theorem credentials_only_to_github :
  forall (repr : json -> string) (urljoin : string -> option string -> outcome string)
         (op : Forge.operation) (t : transport) (log : list request) (req : request),
    In req (snd (Forge.perform repr urljoin op t log)) ->
    ~ In req log ->
    auth req <> None ->
    exists self : GithubAPI.t,
      adapter_of op = Some (Forge.Github self) /\
      auth req = GithubAPI.auth self /\
      Str.startswith (url req) "https://api.github.com/" = true.
Proof.
  intros repr urljoin op t log req Hin Hnew Hauth.
  rewrite operation_log in Hin.
  apply in_app_or in Hin as [Hin|[<-|[]]]; [contradiction|].
  destruct op as [a|a|a branch|a|u|u|self];
    try (exfalso; apply Hauth; reflexivity);
    destruct a as [self|self|self];
    try (exfalso; apply Hauth; reflexivity);
    exists self; repeat split.
Qed.

Lemma credentials_only_to_github_witness :
  exists self : GithubAPI.t,
    adapter_of (Forge.Commits
                  (Forge.Github
                     {| GithubAPI.upstream := "https://github.com/owner/repo";
                        GithubAPI.upstream_repo := "owner/repo";
                        GithubAPI.auth := Some ("user", "token") |}))
    = Some (Forge.Github self) /\
    Some ("user", "token") = GithubAPI.auth self /\
    Str.startswith "https://api.github.com/repos/owner/repo/commits"
      "https://api.github.com/" = true.
Proof.
  apply (credentials_only_to_github Fixture.repr Fixture.urljoin
           (Forge.Commits
              (Forge.Github
                 {| GithubAPI.upstream := "https://github.com/owner/repo";
                    GithubAPI.upstream_repo := "owner/repo";
                    GithubAPI.auth := Some ("user", "token") |}))
           (Fixture.always (Fixture.json_response 200 (JArr []))) []
           {| url := "https://api.github.com/repos/owner/repo/commits";
              auth := Some ("user", "token") |}).
  - simpl. left. reflexivity.
  - intros [].
  - discriminate.
Defined.

(** ** The URLs of a ref *)

Lemma append_inj_l (a b c : string) : a ++ b = a ++ c -> b = c.
Proof.
  induction a as [|d a IH]; simpl; [auto|]. intros [= H]. auto.
Qed.

Lemma length_append (a b : string) :
  String.length (a ++ b) = String.length a + String.length b.
Proof. induction a as [|d a IH]; simpl; [reflexivity|now rewrite IH]. Qed.

(** X5: [url_for_ref] and [changelog_for_ref] return a URL for every kind of
    ref on every adapter, without a request: the [NotImplementedError] of
    the GitHub [url_for_ref] and of the GitLab [changelog_for_ref] is never
    raised. *)
Theorem ref_urls_never_fail :
  forall (a : Forge.adapter) (new_ref old_ref : string) (kind : RefType.t)
         (t : transport) (log : list request),
    exists archive changelog : string,
      Forge.url_for_ref a new_ref kind t log = (Returned archive, log) /\
      changelog_for_ref_of a new_ref old_ref kind t log = (Returned changelog, log).
Proof.
  intros [self|self|self] new_ref old_ref kind t log;
    destruct kind; eexists; eexists; split; reflexivity.
Qed.

(** X6: the GitHub adapter makes no difference between a tag and a release:
    both have the archive [<upstream>/archive/refs/tags/<ref>.tar.gz] and the
    changelog [<upstream>/releases/tag/<ref>], whatever the old ref.  A
    commit has another archive, [<upstream>/archive/<ref>.tar.gz], and
    another changelog, the comparison with the old ref. *)
Theorem github_tags_are_releases :
  forall (self : GithubAPI.t) (ref old_ref old_ref' : string)
         (t : transport) (log : list request),
    let archive := GithubAPI.upstream self ++ "/archive/refs/tags/" ++ ref ++ ".tar.gz" in
    let page := GithubAPI.upstream self ++ "/releases/tag/" ++ ref in
    let commit_archive := GithubAPI.upstream self ++ "/archive/" ++ ref ++ ".tar.gz" in
    let comparison := GithubAPI.upstream self ++ "/compare/" ++ old_ref ++ "..." ++ ref in
    GithubAPI.url_for_ref self ref RefType.tags t log = (Returned archive, log) /\
    GithubAPI.url_for_ref self ref RefType.releases t log = (Returned archive, log) /\
    GithubAPI.changelog_for_ref self ref old_ref RefType.tags t log = (Returned page, log) /\
    GithubAPI.changelog_for_ref self ref old_ref' RefType.releases t log
    = (Returned page, log) /\
    GithubAPI.url_for_ref self ref RefType.commits t log = (Returned commit_archive, log) /\
    GithubAPI.changelog_for_ref self ref old_ref RefType.commits t log
    = (Returned comparison, log) /\
    commit_archive <> archive /\
    comparison <> page.
Proof.
  intros self ref old_ref old_ref' t log archive page commit_archive comparison.
  repeat split.
  - unfold commit_archive, archive. intros H.
    apply append_inj_l in H.
    apply (f_equal String.length) in H. simpl in H. lia.
  - unfold comparison, page. intros H.
    apply append_inj_l in H. discriminate H.
Qed.

(** X7: the GitLab adapter's changelog tells the three kinds of ref apart:
    the comparison for a commit, the tag's page for a tag, the release's
    page for a release, no two of them the same URL. *)
Theorem gitlab_changelog_by_kind :
  forall (self : GitlabAPI.t) (new_ref old_ref : string)
         (t : transport) (log : list request),
    let project := GitlabAPI.forge_root self ++ "/" ++ GitlabAPI.project_path self ++ "/-/" in
    let comparison := project ++ "compare/" ++ old_ref ++ "..." ++ new_ref in
    let tag_page := project ++ "tags/" ++ new_ref in
    let release_page := project ++ "releases/" ++ new_ref in
    GitlabAPI.changelog_for_ref self new_ref old_ref RefType.commits t log
    = (Returned comparison, log) /\
    GitlabAPI.changelog_for_ref self new_ref old_ref RefType.tags t log
    = (Returned tag_page, log) /\
    GitlabAPI.changelog_for_ref self new_ref old_ref RefType.releases t log
    = (Returned release_page, log) /\
    comparison <> tag_page /\ comparison <> release_page /\ tag_page <> release_page.
Proof.
  intros self new_ref old_ref t log project comparison tag_page release_page.
  assert (E : forall tail : string,
             GitlabAPI.forge_root self ++ "/" ++ GitlabAPI.project_path self
             ++ "/-/" ++ tail = project ++ tail).
  { intros tail. unfold project. now rewrite !append_assoc. }
  repeat split.
  - unfold GitlabAPI.changelog_for_ref, ret. simpl.
    unfold comparison. now rewrite <- E.
  - unfold GitlabAPI.changelog_for_ref, ret. simpl.
    unfold tag_page. now rewrite <- E.
  - unfold GitlabAPI.changelog_for_ref, ret. simpl.
    unfold release_page. now rewrite <- E.
  - intros H. apply append_inj_l in H. discriminate H.
  - intros H. apply append_inj_l in H. discriminate H.
  - intros H. apply append_inj_l in H. discriminate H.
Qed.

(** ** Native records that do not fit *)

Lemma omap_raised {A B : Type} (f : A -> outcome B) (before after : list A)
  (x : A) (e : exception) :
  Forall (fun y => exists z : B, f y = Returned z) before ->
  f x = Raised e ->
  omap f (before ++ x :: after) = Raised e.
Proof.
  intros Hb Hx. induction Hb as [|y before (z & Hy) _ IH]; simpl.
  - now rewrite Hx.
  - now rewrite Hy, IH.
Qed.

(** X8: [commits] of the GitLab adapter gives no partial list.  When the
    records before some record of the native list are dicts with an [id] and
    a [committed_date], and that record is not a dict, or is a dict without
    [id], or with [id] and without [committed_date], the whole call fails,
    with [TypeError], [KeyError "id"] or [KeyError "committed_date"]. *)
Theorem gitlab_commits_all_or_nothing :
  forall (repr : json -> string) (self : GitlabAPI.t) (t : transport)
         (log : list request) (native bad : json) (before after : list json),
    decoded (t log (Forge.request_of repr (Forge.Commits (Forge.Gitlab self))))
    = Returned native ->
    Py.iter native = Returned (before ++ bad :: after)%list ->
    Forall (fun n => exists out : json, gitlab_commit_remapped n out) before ->
    let failing (e : exception) :=
      GitlabAPI.commits repr self t log =
      (Raised e, (log ++ [Forge.request_of repr (Forge.Commits (Forge.Gitlab self))])%list) in
    (Py.is_dict bad = false -> failing TypeError) /\
    (forall d : list (string * json),
        bad = JObj d -> Py.lookup "id" d = None -> failing (KeyError "id")) /\
    (forall (d : list (string * json)) (id : json),
        bad = JObj d -> Py.lookup "id" d = Some id ->
        Py.lookup "committed_date" d = None ->
        failing (KeyError "committed_date")).
Proof.
  intros repr self t log native bad before after Hn Hi Hb failing.
  assert (H : forall e, GitlabAPI.remap_commit bad = Raised e -> failing e).
  { intros e He. unfold failing. rewrite gitlab_commits_run, Hn. simpl obind.
    rewrite Hi. simpl obind.
    rewrite (omap_raised GitlabAPI.remap_commit before after bad e); [reflexivity| |exact He].
    eapply Forall_impl; [|exact Hb].
    intros n (out & Hout). exists out. now apply remap_commit_spec. }
  repeat split.
  - intros Hd. apply H. destruct bad; try reflexivity. discriminate.
  - intros d -> Hid. apply H. unfold GitlabAPI.remap_commit. simpl. now rewrite Hid.
  - intros d id -> Hid Hdate. apply H. unfold GitlabAPI.remap_commit. simpl.
    rewrite Hid. simpl. now rewrite Hdate.
Qed.

Lemma gitlab_commits_all_or_nothing_witness :
  GitlabAPI.commits Fixture.repr Fixture.gitlab
    (Fixture.always
       (Fixture.json_response 200
          (JArr [JObj [("id", JStr "abc123");
                       ("committed_date", JStr "2024-01-01T00:00:00Z")];
                 JObj [("id", JStr "def456")]]))) []
  = (Raised (KeyError "committed_date"),
     [{| url := "https://gitlab.example/api/v4/projects/42/repository/commits";
         auth := None |}]).
Proof.
  refine (proj2 (proj2
    (gitlab_commits_all_or_nothing Fixture.repr Fixture.gitlab
       (Fixture.always
          (Fixture.json_response 200
             (JArr [JObj [("id", JStr "abc123");
                          ("committed_date", JStr "2024-01-01T00:00:00Z")];
                    JObj [("id", JStr "def456")]]))) []
       _ (JObj [("id", JStr "def456")])
       [JObj [("id", JStr "abc123"); ("committed_date", JStr "2024-01-01T00:00:00Z")]]
       [] eq_refl eq_refl _))
    [("id", JStr "def456")] (JStr "def456") eq_refl eq_refl eq_refl).
  constructor; [|constructor].
  eexists. eexists. eexists. repeat split.
Defined.

(** X9: the list that [releases] of the GitLab adapter returns has one
    record for each native release, in the order of the forge, with the
    native [tag_name], with the native [_links.self] as [html_url], and with
    as many assets as the native release has links and sources together. *)
Theorem gitlab_releases_in_order :
  forall (repr : json -> string) (self : GitlabAPI.t) (t : transport)
         (log log' : list request) (v : json),
    GitlabAPI.releases repr self t log = (Returned v, log') ->
    exists (native : json) (natives outs : list json),
      decoded (t log (Forge.request_of repr (Forge.Releases (Forge.Gitlab self))))
      = Returned native /\
      Py.iter native = Returned natives /\
      v = JArr outs /\
      List.length outs = List.length natives /\
      Forall2
        (fun n out =>
           Py.getitem out "tag_name" = Py.getitem n "tag_name" /\
           Py.getitem out "html_url"
           = (let? links := Py.getitem n "_links" in Py.getitem links "self") /\
           exists (assets : list json) (link_items source_items : list json),
             Py.getitem out "assets" = Returned (JArr assets) /\
             (let? a := Py.getitem n "assets" in
              let? l := Py.getitem a "links" in Py.iter l) = Returned link_items /\
             (let? a := Py.getitem n "assets" in
              let? s := Py.getitem a "sources" in Py.iter s) = Returned source_items /\
             List.length assets
             = (List.length link_items + List.length source_items)%nat)
        natives outs.
Proof.
  intros repr self t log log' v H.
  apply gitlab_releases_spec in H
    as (native & natives & outs & Hn & _ & Hi & Ho & ->).
  exists native, natives, outs. repeat split; try assumption.
  - symmetry. exact (Forall2_length Ho).
  - eapply Forall2_weaken; [|exact Ho]. clear. intros n out H.
    destruct H as (tag_name & links0 & html_url & assets0 & links & sources &
                   link_items & source_items & from_links & from_sources &
                   H1 & H2 & H3 & H4 & H5 & H6 & H7 & H8 & H9 & H10 & ->).
    split; [now rewrite H1|]. split; [rewrite H2; simpl; now rewrite H3|].
    exists (from_links ++ from_sources)%list, link_items, source_items.
    split; [reflexivity|].
    split; [rewrite H4; simpl; rewrite H5; exact H6|].
    split; [rewrite H4; simpl; rewrite H8; exact H9|].
    rewrite length_app, (Forall2_length H7), (Forall2_length H10). reflexivity.
Qed.

Lemma gitlab_releases_in_order_witness :
  exists (native : json) (natives outs : list json),
    decoded (Fixture.always (Fixture.json_response 200 (JArr [Fixture.native_release])) []
               (Forge.request_of Fixture.repr (Forge.Releases (Forge.Gitlab Fixture.gitlab))))
    = Returned native /\
    Py.iter native = Returned natives /\
    JArr [Fixture.release] = JArr outs /\
    List.length outs = List.length natives.
Proof.
  destruct (gitlab_releases_in_order Fixture.repr Fixture.gitlab
              (Fixture.always (Fixture.json_response 200 (JArr [Fixture.native_release])))
              []
              [{| url := "https://gitlab.example/api/v4/projects/42/releases";
                  auth := None |}]
              (JArr [Fixture.release]) eq_refl)
    as (native & natives & outs & H1 & H2 & H3 & H4 & _).
  exists native, natives, outs. repeat split; assumption.
Defined.

(** X10: [tip_of_branch] needs the [commit] member of the branch: on each
    adapter, a branch payload that is a dict without [commit] fails with
    [KeyError "commit"], and a payload that is not a dict with
    [TypeError]. *)
Theorem tip_of_branch_without_commit :
  forall (repr : json -> string) (a : Forge.adapter) (branch : string)
         (t : transport) (log : list request) (payload : json),
    decoded (t log (Forge.request_of repr (Forge.TipOfBranch a branch)))
    = Returned payload ->
    let failing (e : exception) :=
      Forge.tip_of_branch repr a branch t log =
      (Raised e, (log ++ [Forge.request_of repr (Forge.TipOfBranch a branch)])%list) in
    (Py.is_dict payload = false -> failing TypeError) /\
    (forall d : list (string * json),
        payload = JObj d -> Py.lookup "commit" d = None -> failing (KeyError "commit")).
Proof.
  intros repr a branch t log payload Hp failing.
  assert (H : forall e, Py.getitem payload "commit" = Raised e -> failing e).
  { intros e He. unfold failing.
    destruct a as [self|self|self]; cbn [Forge.tip_of_branch];
      [ rewrite (github_tip_of_branch_run repr)
      | rewrite gitlab_tip_of_branch_run
      | rewrite (gitea_tip_of_branch_run repr) ];
      rewrite Hp; simpl obind; rewrite He; reflexivity. }
  split.
  - intros Hd. apply H. destruct payload; try reflexivity. discriminate.
  - intros d -> Hc. apply H. simpl. now rewrite Hc.
Qed.

Lemma tip_of_branch_without_commit_witness :
  Forge.tip_of_branch Fixture.repr (Forge.GiteaForgejo Fixture.gitea) "main"
    (Fixture.always (Fixture.json_response 200 (JObj [("name", JStr "main")]))) []
  = (Raised (KeyError "commit"),
     [{| url := "https://gitea.example/api/v1/repos/owner/repo/branches/main";
         auth := None |}]).
Proof.
  apply (proj2 (tip_of_branch_without_commit Fixture.repr
                  (Forge.GiteaForgejo Fixture.gitea) "main"
                  (Fixture.always (Fixture.json_response 200 (JObj [("name", JStr "main")])))
                  [] (JObj [("name", JStr "main")]) eq_refl)
           [("name", JStr "main")] eq_refl eq_refl).
Defined.

(** ** Projects that the forge describes badly *)

(** X11: what [find_project_id] makes of a direct lookup that returns.  An
    answer that is not a dict fails the assertion.  A dict without [id]
    gives [None] as the project id, with no failure, and no second request
    either way; the adapter then asks for [projects/None/...]. *)
Theorem gitlab_project_without_id :
  forall (repr : json -> string) (self : GitlabAPI.t) (project : string)
         (t : transport) (log : list request) (p : json),
    decoded (t log (lookup_request self project)) = Returned p ->
    (Py.is_dict p = false ->
     GitlabAPI.find_project_id self project t log =
     (Raised (AssertionError None), (log ++ [lookup_request self project])%list)) /\
    (forall d : list (string * json),
        p = JObj d -> Py.lookup "id" d = None ->
        GitlabAPI.find_project_id self project t log =
        (Returned JNull, (log ++ [lookup_request self project])%list) /\
        Forge.request_of repr
          (Forge.Tags (Forge.Gitlab
                         {| GitlabAPI.forge_root := GitlabAPI.forge_root self;
                            GitlabAPI.project_path := GitlabAPI.project_path self;
                            GitlabAPI.project_id := JNull |}))
        = {| url := GitlabAPI.forge_root self ++ "/api/v4/projects/None/repository/tags";
             auth := None |}).
Proof.
  intros repr self project t log p Hp.
  pose proof (gitlab_find_project_id_run self project t log) as Hrun.
  cbv zeta in Hrun. rewrite Hp in Hrun. split.
  - intros Hd. rewrite Hrun. unfold id_of. now rewrite Hd.
  - intros d -> Hid. split; [|reflexivity].
    rewrite Hrun. unfold id_of. simpl. now rewrite Hid.
Qed.

Lemma gitlab_project_without_id_witness :
  GitlabAPI.find_project_id Fixture.gitlab_unresolved "group/project"
    (Fixture.always (Fixture.json_response 200 (JObj [("name", JStr "project")]))) []
  = (Returned JNull,
     [{| url := "https://gitlab.example/api/v4/projects/group%2Fproject"; auth := None |}]).
Proof.
  apply (proj2 (gitlab_project_without_id Fixture.repr Fixture.gitlab_unresolved
                  "group/project"
                  (Fixture.always
                     (Fixture.json_response 200 (JObj [("name", JStr "project")])))
                  [] (JObj [("name", JStr "project")]) eq_refl)
           [("name", JStr "project")] eq_refl eq_refl).
Defined.

Lemma next_filter_raised (p : json -> outcome bool) (before after : list json)
  (bad : json) (e : exception) :
  Forall (fun x => p x = Returned false) before ->
  p bad = Raised e ->
  Py.next_filter p (before ++ bad :: after) = Raised e.
Proof.
  intros Hb He. induction Hb as [|x before Hx _ IH]; simpl.
  - now rewrite He.
  - now rewrite Hx.
Qed.

(** X12: what the search of [find_project_id] makes of a result that is not
    a list of projects.  A result that cannot be iterated ([null], a number,
    a boolean) fails with [TypeError].  An item that is not a dict, met
    before any project with the wanted path, fails with [AttributeError]; so
    does a result that is itself a non-empty dict, whose keys are the
    items. *)
Theorem gitlab_search_malformed :
  forall (self : GitlabAPI.t) (project : string) (t : transport)
         (log : list request) (projects : json),
    decoded (t log (lookup_request self project)) = Raised (HTTPError 404) ->
    decoded (t (log ++ [lookup_request self project])%list (search_request self))
    = Returned projects ->
    let failing (e : exception) :=
      GitlabAPI.find_project_id self project t log =
      (Raised e, (log ++ [lookup_request self project; search_request self])%list) in
    (forall e : exception, Py.iter projects = Raised e -> failing TypeError) /\
    (forall (before after : list json) (bad : json),
        Py.iter projects = Returned (before ++ bad :: after)%list ->
        Forall (fun x => has_path (GitlabAPI.project_path self) x = Returned false)
          before ->
        Py.is_dict bad = false ->
        failing AttributeError) /\
    (forall (k : string) (v : json) (d : list (string * json)),
        projects = JObj ((k, v) :: d) -> failing AttributeError).
Proof.
  intros self project t log projects H1 H2 failing.
  pose proof (gitlab_find_project_id_run self project t log) as Hrun.
  cbv zeta in Hrun. rewrite H1 in Hrun. simpl in Hrun. rewrite H2 in Hrun.
  simpl obind in Hrun.
  assert (Hlog : ((log ++ [lookup_request self project]) ++ [search_request self])%list
                 = (log ++ [lookup_request self project; search_request self])%list).
  { now rewrite <- app_assoc. }
  rewrite Hlog in Hrun. unfold failing. rewrite Hrun.
  assert (Hbad : forall (before after : list json) (bad : json),
             Py.iter projects = Returned (before ++ bad :: after)%list ->
             Forall (fun x => has_path (GitlabAPI.project_path self) x = Returned false)
               before ->
             Py.is_dict bad = false ->
             (let? items := Py.iter projects in
              let? p := Py.next_filter (has_path (GitlabAPI.project_path self)) items in
              id_of p) = Raised AttributeError).
  { intros before after bad Hi Hb Hd. rewrite Hi. simpl obind.
    rewrite (next_filter_raised _ before after bad AttributeError Hb); [reflexivity|].
    destruct bad; try reflexivity. discriminate. }
  split; [|split].
  - intros e He. destruct projects; try discriminate He; reflexivity.
  - intros before after bad Hi Hb Hd. now rewrite (Hbad before after bad Hi Hb Hd).
  - intros k v d ->.
    now rewrite (Hbad [] (map (fun kv => JStr (fst kv)) d) (JStr k) eq_refl
                   (Forall_nil _) eq_refl).
Qed.

Lemma gitlab_search_malformed_witness :
  GitlabAPI.find_project_id Fixture.gitlab_unresolved "group/project"
    (fun _ req =>
       if String.eqb (url req) "https://gitlab.example/api/v4/projects/group%2Fproject"
       then Returned (Fixture.json_response 404 JNull)
       else Returned (Fixture.json_response 200
                        (JObj [("message", JStr "search is disabled")]))) []
  = (Raised AttributeError,
     [lookup_request Fixture.gitlab_unresolved "group/project";
      search_request Fixture.gitlab_unresolved]).
Proof.
  apply (proj2 (proj2
    (gitlab_search_malformed Fixture.gitlab_unresolved "group/project"
       (fun _ req =>
          if String.eqb (url req) "https://gitlab.example/api/v4/projects/group%2Fproject"
          then Returned (Fixture.json_response 404 JNull)
          else Returned (Fixture.json_response 200
                           (JObj [("message", JStr "search is disabled")])))
       [] (JObj [("message", JStr "search is disabled")]) eq_refl eq_refl))
    "message" (JStr "search is disabled") [] eq_refl).
Defined.

(** ** What construction leaves in the adapter *)

Lemma rstrip_not_last (chars s : string) (c : ascii) :
  Str.mem c chars = true -> not_last c (Str.rstrip chars s).
Proof.
  intros Hc x E. apply rstrip_last in E. congruence.
Qed.

Lemma strip_not_last (chars s : string) (c : ascii) :
  Str.mem c chars = true -> not_last c (Str.strip chars s).
Proof.
  intros Hc x E. apply strip_last in E. congruence.
Qed.

Lemma lstrip_not_first (chars s : string) (c : ascii) :
  Str.mem c chars = true -> not_first c (Str.lstrip chars s).
Proof.
  intros Hc r E. apply lstrip_head in E. congruence.
Qed.

Lemma rstrip_prefix (chars s : string) :
  exists suffix : string, s = Str.rstrip chars s ++ suffix.
Proof.
  induction s as [|c s (suffix & IH)]; simpl.
  - now exists "".
  - destruct (Str.rstrip chars s) as [|d r] eqn:E.
    + destruct (Str.mem c chars).
      * exists (String c s). reflexivity.
      * exists s. reflexivity.
    + exists suffix. simpl. f_equal. exact IH.
Qed.

Lemma rstrip_mem (chars s : string) (c : ascii) :
  Str.mem c s = false -> Str.mem c (Str.rstrip chars s) = false.
Proof.
  intros H. destruct (rstrip_prefix chars s) as (suffix & E).
  rewrite E, mem_app in H. now apply orb_false_iff in H as [H _].
Qed.

Lemma gitlab_init_run (upstream : string) (t : transport) (log : list request) :
  GitlabAPI.init upstream t log =
  match GitlabAPI.get_forge_root upstream t log with
  | (Raised e, log0) => (Raised e, log0)
  | (Returned root, log0) =>
      let forge_root := Str.rstrip "/" root in
      let project_path := Str.strip "/" (Str.replace forge_root "" upstream) in
      let self := {| GitlabAPI.forge_root := forge_root;
                     GitlabAPI.project_path := project_path;
                     GitlabAPI.project_id := JNull |} in
      match GitlabAPI.find_project_id self project_path t log0 with
      | (Raised e, log') => (Raised e, log')
      | (Returned id, log') =>
          (Returned {| GitlabAPI.forge_root := forge_root;
                       GitlabAPI.project_path := project_path;
                       GitlabAPI.project_id := id |}, log')
      end
  end.
Proof.
  unfold GitlabAPI.init, bind.
  destruct (GitlabAPI.get_forge_root upstream t log) as [[e|root] log0];
    [reflexivity|].
  cbv zeta.
  destruct (GitlabAPI.find_project_id _ _ t log0) as [[e|id] log']; reflexivity.
Qed.

Lemma gitlab_get_forge_root_log (u : string) (t : transport) (log : list request) :
  snd (GitlabAPI.get_forge_root u t log) = (log ++ [page_request u])%list.
Proof.
  unfold GitlabAPI.get_forge_root. rewrite page_call.
  destruct (fetched (t log (page_request u))) as [e|r]; [reflexivity|].
  destruct (Re.search GitlabAPI.pattern (text r)); reflexivity.
Qed.

(** X13: construction of the GitLab adapter.  When discovery of the root
    fails, construction fails with the same exception and has only asked for
    the page.  When construction succeeds, the forge root of the adapter
    does not end with a slash, its project path neither begins nor ends with
    one, and the requests were the page, the direct lookup of the project
    and, at most, the search. *)
Theorem gitlab_init_adapter :
  forall (upstream : string) (t : transport) (log : list request),
    (forall e : exception,
        fst (GitlabAPI.get_forge_root upstream t log) = Raised e ->
        GitlabAPI.init upstream t log = (Raised e, (log ++ [page_request upstream])%list)) /\
    (forall (self : GitlabAPI.t) (log' : list request),
        GitlabAPI.init upstream t log = (Returned self, log') ->
        not_last "/" (GitlabAPI.forge_root self) /\
        not_first "/" (GitlabAPI.project_path self) /\
        not_last "/" (GitlabAPI.project_path self) /\
        (log' = (log ++ [page_request upstream;
                         lookup_request self (GitlabAPI.project_path self)])%list \/
         log' = (log ++ [page_request upstream;
                         lookup_request self (GitlabAPI.project_path self);
                         search_request self])%list)).
Proof.
  intros upstream t log.
  pose proof (gitlab_get_forge_root_log upstream t log) as Hlog.
  rewrite gitlab_init_run.
  destruct (GitlabAPI.get_forge_root upstream t log) as [[e0|root] log0];
    simpl in Hlog; subst log0.
  - split; [now intros e [= ->]|discriminate].
  - split; [discriminate|]. cbv zeta.
    set (forge_root := Str.rstrip "/" root).
    set (project_path := Str.strip "/" (Str.replace forge_root "" upstream)).
    set (self0 := {| GitlabAPI.forge_root := forge_root;
                     GitlabAPI.project_path := project_path;
                     GitlabAPI.project_id := JNull |}).
    intros self log' H.
    pose proof (gitlab_find_project_id_run self0 project_path t
                  (log ++ [page_request upstream])%list) as Hrun.
    cbv zeta in Hrun.
    destruct (GitlabAPI.find_project_id self0 project_path t
                (log ++ [page_request upstream])%list) as [[e|id] log1];
      [discriminate|].
    injection H as <- <-. cbn [GitlabAPI.forge_root GitlabAPI.project_path].
    split; [now apply rstrip_not_last|].
    split; [now apply lstrip_not_first|].
    split; [now apply strip_not_last|].
    change (lookup_request _ project_path) with (lookup_request self0 project_path).
    change (search_request _) with (search_request self0).
    destruct (decoded (t (log ++ [page_request upstream])%list
                         (lookup_request self0 project_path))) as [e|p].
    + destruct e as [status| | |msg|key| | | | | ]; try discriminate.
      destruct (status =? 404)%Z; [|discriminate].
      right. injection Hrun as _ ->. now rewrite <- !app_assoc.
    + left. injection Hrun as _ ->. now rewrite <- app_assoc.
Qed.

Lemma gitlab_init_adapter_witness :
  not_last "/" (GitlabAPI.forge_root Fixture.gitlab) /\
  not_first "/" (GitlabAPI.project_path Fixture.gitlab) /\
  not_last "/" (GitlabAPI.project_path Fixture.gitlab).
Proof.
  destruct (proj2 (gitlab_init_adapter "https://gitlab.example/group/project/"
                     (fun log req =>
                        if String.eqb (url req) "https://gitlab.example/group/project/"
                        then Returned Fixture.gitlab_page
                        else Fixture.buggy_gitlab log req) [])
              Fixture.gitlab
              [{| url := "https://gitlab.example/group/project/"; auth := None |};
               {| url := "https://gitlab.example/api/v4/projects/group%2Fproject";
                  auth := None |};
               {| url := "https://gitlab.example/api/v4/projects?search=project";
                  auth := None |}]
              eq_refl)
    as (H1 & H2 & H3 & _).
  repeat split; assumption.
Defined.

(** X14: construction of the Gitea/Forgejo adapter asks for the page and
    for nothing else.  It fails as discovery of the root fails; when it
    succeeds, the forge root of the adapter holds no backslash and does not
    end with a slash, and the project path does not begin with a slash. *)
Theorem gitea_init_adapter :
  forall (upstream : string) (t : transport) (log : list request),
    snd (GiteaForgejoAPI.init upstream t log) = (log ++ [page_request upstream])%list /\
    (forall e : exception,
        fst (GiteaForgejoAPI.get_forge_root upstream t log) = Raised e ->
        fst (GiteaForgejoAPI.init upstream t log) = Raised e) /\
    (forall self : GiteaForgejoAPI.t,
        fst (GiteaForgejoAPI.init upstream t log) = Returned self ->
        Str.mem "\" (GiteaForgejoAPI.forge_root self) = false /\
        not_last "/" (GiteaForgejoAPI.forge_root self) /\
        not_first "/" (GiteaForgejoAPI.project_path self)).
Proof.
  intros upstream t log.
  unfold GiteaForgejoAPI.init, bind, GiteaForgejoAPI.get_forge_root.
  rewrite page_call.
  destruct (fetched (t log (page_request upstream))) as [e|r].
  - split; [reflexivity|]. split; [now intros e' [= ->]|discriminate].
  - destruct (Re.search GiteaForgejoAPI.pattern (text r)) as [groups|].
    + split; [reflexivity|]. split; [discriminate|].
      intros self [= <-]. cbn [GiteaForgejoAPI.forge_root GiteaForgejoAPI.project_path].
      split; [apply rstrip_mem, replace_backslash_free|].
      split; [now apply rstrip_not_last|now apply lstrip_not_first].
    + split; [reflexivity|]. split; [now intros e' [= ->]|discriminate].
Qed.

Lemma gitea_init_adapter_witness :
  GiteaForgejoAPI.init "https://gitea.example/owner/repo"
    (Fixture.always Fixture.gitea_page) []
  = (Returned Fixture.gitea, [page_request "https://gitea.example/owner/repo"]) /\
  Str.mem "\" (GiteaForgejoAPI.forge_root Fixture.gitea) = false /\
  not_last "/" (GiteaForgejoAPI.forge_root Fixture.gitea) /\
  not_first "/" (GiteaForgejoAPI.project_path Fixture.gitea).
Proof.
  split; [reflexivity|].
  exact (proj2 (proj2 (gitea_init_adapter "https://gitea.example/owner/repo"
                         (Fixture.always Fixture.gitea_page) []))
           Fixture.gitea eq_refl).
Defined.

Lemma rstrip_stripped_char (chars s : string) (c : ascii) :
  Str.mem c chars = true ->
  Str.rstrip chars (s ++ String c "") = Str.rstrip chars s.
Proof.
  intros Hc. induction s as [|d s IH]; simpl.
  - now rewrite Hc.
  - now rewrite IH.
Qed.

(** X15: the GitHub adapter that construction returns has an upstream that
    neither begins nor ends with a slash; and a slash at the end of
    "https://github.com/<owner>/<name>/" changes nothing: the adapter is the
    one of the upstream without it, whose archives are under
    "https://github.com/<owner>/<name>/archive/". *)
Theorem github_init_trailing_slash :
  forall (auth : option (string * string)) (t : transport) (log : list request),
    (forall (upstream : string) (self : GithubAPI.t) (log' : list request),
        GithubAPI.init upstream auth t log = (Returned self, log') ->
        not_first "/" (GithubAPI.upstream self) /\
        not_last "/" (GithubAPI.upstream self)) /\
    (forall owner name : string,
        owner <> "" -> name <> "" ->
        Str.mem "/" owner = false -> Str.mem "/" name = false ->
        GithubAPI.init ("https://github.com/" ++ owner ++ "/" ++ name ++ "/") auth t log
        = GithubAPI.init ("https://github.com/" ++ owner ++ "/" ++ name) auth t log /\
        forall (self : GithubAPI.t) (ref : string),
          GithubAPI.init ("https://github.com/" ++ owner ++ "/" ++ name ++ "/") auth t log
          = (Returned self, log) ->
          GithubAPI.url_for_ref self ref RefType.commits t log
          = (Returned ("https://github.com/" ++ owner ++ "/" ++ name
                       ++ "/archive/" ++ ref ++ ".tar.gz"), log)).
Proof.
  intros auth t log. split.
  - intros upstream self log' H. unfold GithubAPI.init in H.
    destruct (Nat.eqb _ 2); [|discriminate].
    injection H as <- _. cbn [GithubAPI.upstream].
    split; [now apply lstrip_not_first|now apply strip_not_last].
  - intros owner name Ho Hn Hofree Hnfree.
    destruct owner as [|c a]; [congruence|]. clear Ho.
    assert (Hc : Ascii.eqb c "/" = false).
    { simpl in Hofree. apply orb_false_iff in Hofree as [Hc _].
      now rewrite Ascii.eqb_sym. }
    assert (Htrail : forall x : string, Str.strip "/" (x ++ "/") = Str.strip "/" x).
    { intros x. unfold Str.strip. now rewrite rstrip_stripped_char. }
    assert (Hrepo : Str.strip "/" (String c a ++ "/" ++ name) = String c a ++ "/" ++ name).
    { rewrite <- append_assoc. now apply strip_slash_id. }
    assert (Hup : Str.strip "/" ("https://github.com/" ++ String c a ++ "/" ++ name)
                  = "https://github.com/" ++ String c a ++ "/" ++ name).
    { replace ("https://github.com/" ++ String c a ++ "/" ++ name)
        with (String "h" ("ttps://github.com/" ++ String c a ++ "/") ++ name)
        by (simpl; now rewrite append_assoc).
      now apply strip_slash_id. }
    assert (Hslash : "https://github.com/" ++ String c a ++ "/" ++ name ++ "/"
                     = ("https://github.com/" ++ String c a ++ "/" ++ name) ++ "/").
    { simpl. now rewrite !append_assoc. }
    assert (Hgood : GithubAPI.init ("https://github.com/" ++ String c a ++ "/" ++ name)
                      auth t log
                    = (Returned
                         {| GithubAPI.upstream :=
                              "https://github.com/" ++ String c a ++ "/" ++ name;
                            GithubAPI.upstream_repo := String c a ++ "/" ++ name;
                            GithubAPI.auth := auth |}, log)).
    { rewrite (github_init_run _ auth t log (String c a) name);
        [now rewrite Hup| |exact Hofree|exact Hnfree].
      rewrite replace_github_prefix, replace_github_few_slashes; [exact Hrepo|].
      rewrite !slashes_app, (slashes_free _ Hofree), (slashes_free _ Hnfree).
      simpl. lia. }
    assert (Halso : GithubAPI.init ("https://github.com/" ++ String c a ++ "/" ++ name ++ "/")
                      auth t log
                    = (Returned
                         {| GithubAPI.upstream :=
                              "https://github.com/" ++ String c a ++ "/" ++ name;
                            GithubAPI.upstream_repo := String c a ++ "/" ++ name;
                            GithubAPI.auth := auth |}, log)).
    { rewrite (github_init_run _ auth t log (String c a) name);
        [now rewrite Hslash, Htrail, Hup| |exact Hofree|exact Hnfree].
      rewrite replace_github_prefix, replace_github_few_slashes.
      - replace (String c a ++ "/" ++ name ++ "/")
          with ((String c a ++ "/" ++ name) ++ "/")
          by (simpl; now rewrite !append_assoc).
        now rewrite Htrail.
      - rewrite !slashes_app, (slashes_free _ Hofree), (slashes_free _ Hnfree).
        simpl. lia. }
    split; [now rewrite Halso, Hgood|].
    intros self ref H. rewrite Halso in H. injection H as <-.
    unfold GithubAPI.url_for_ref, ret. simpl.
    now rewrite !append_assoc.
Qed.

Lemma github_init_trailing_slash_witness :
  GithubAPI.init "https://github.com/owner/repo/" None
    (Fixture.always Fixture.gitlab_page) []
  = GithubAPI.init "https://github.com/owner/repo" None
      (Fixture.always Fixture.gitlab_page) [] /\
  not_first "/" (GithubAPI.upstream Fixture.github) /\
  not_last "/" (GithubAPI.upstream Fixture.github).
Proof.
  split.
  - apply (proj2 (github_init_trailing_slash None (Fixture.always Fixture.gitlab_page) [])
             "owner" "repo"); try reflexivity; discriminate.
  - apply (proj1 (github_init_trailing_slash None (Fixture.always Fixture.gitlab_page) [])
             "https://github.com/owner/repo/" Fixture.github []).
    reflexivity.
Defined.

(** ** The order of the links *)

Section DictOrder.

Variables K V : Type.
Variable eqb : K -> K -> bool.
Hypothesis eqb_spec : forall a b : K, eqb a b = true <-> a = b.

Lemma setitem_fresh (k : K) (v : V) (d : list (K * V)) :
  ~ In k (map fst d) -> Py.setitem eqb k v d = (d ++ [(k, v)])%list.
Proof.
  induction d as [|[k' v'] d IH]; simpl; intros H; [reflexivity|].
  rewrite (eqb_false_of_spec _ eqb eqb_spec k k') by (intros ->; apply H; now left).
  rewrite IH; [reflexivity|]. intros Hin. apply H. now right.
Qed.

Lemma fold_fresh (es d : list (K * V)) :
  NoDup (map fst es) ->
  (forall e, In e es -> ~ In (fst e) (map fst d)) ->
  fold_left (Py.update eqb) es d = (d ++ es)%list.
Proof.
  revert d. induction es as [|e es IH]; intros d Hnd Hd; simpl.
  - now rewrite app_nil_r.
  - inversion Hnd as [|? ? Hnotin Hnd']; subst.
    unfold Py.update at 2. rewrite setitem_fresh by (apply Hd; now left).
    rewrite IH.
    + rewrite <- app_assoc. destruct e. reflexivity.
    + exact Hnd'.
    + intros e' He' Hin. rewrite map_app, in_app_iff in Hin.
      destruct Hin as [Hin|[Hin|[]]].
      * now apply (Hd e' (or_intror He')).
      * apply Hnotin. simpl in Hin. rewrite Hin. now apply in_map.
Qed.

Lemma length_setitem (k : K) (v : V) (d : list (K * V)) :
  List.length (Py.setitem eqb k v d) <= S (List.length d).
Proof.
  induction d as [|[k' v'] d IH]; simpl; [lia|].
  destruct (eqb k k'); simpl; [lia|]. apply le_n_S. exact IH.
Qed.

Lemma length_fold (es d : list (K * V)) :
  List.length (fold_left (Py.update eqb) es d) <= List.length d + List.length es.
Proof.
  revert d. induction es as [|e es IH]; intros d; simpl; [lia|].
  pose proof (IH (Py.update eqb d e)) as H.
  pose proof (length_setitem (fst e) (snd e) d) as H'.
  fold (Py.update eqb d e) in H'. lia.
Qed.

End DictOrder.

(** X16: the dict of links that [get_web_page_links] returns has at most
    one item for each anchor of the page; and when [urljoin] returns for
    every anchor and no two anchors have the same [string], the dict is
    exactly the anchors' items, the [string] with what [urljoin] returned, in
    the order of the document. *)
Theorem web_page_links_in_document_order :
  forall (urljoin : string -> option string -> outcome string)
         (self : DownloadPageAPI.t) (t : transport) (log : list request)
         (r : response),
    fetched (t log (page_request (DownloadPageAPI.web_page self))) = Returned r ->
    let anchors := Soup.find_all "a" (html r) in
    let base := DownloadPageAPI.web_page self in
    (forall (d : list (option string * string)) (log' : list request),
        DownloadPageAPI.get_web_page_links urljoin self t log = (Returned d, log') ->
        List.length d <= List.length anchors) /\
    (forall items : list (option string * string),
        Forall2 (fun link item =>
                   fst item = Soup.string_of link /\
                   urljoin base (Soup.get link "href") = Returned (snd item))
          anchors items ->
        NoDup (map Soup.string_of anchors) ->
        DownloadPageAPI.get_web_page_links urljoin self t log =
        (Returned items, (log ++ [page_request base])%list)).
Proof.
  intros urljoin self t log r Hr anchors base.
  rewrite (web_page_links_run urljoin self t log r Hr).
  fold anchors base. unfold DownloadPageAPI.link_dict. split.
  - intros d log' [= H _]. apply link_dict_from_returned in H as (es & F & ->).
    pose proof (length_fold _ _ DownloadPageAPI.key_eqb es []) as H.
    rewrite <- (Forall2_length F) in H. exact H.
  - intros items F Hnd.
    assert (F' : Forall2 (fun link e => link_entry urljoin base link = Returned e)
                   anchors items).
    { eapply Forall2_weaken; [|exact F]. intros link e. apply link_entry_returned. }
    f_equal. apply link_dict_from_returned. exists items. split; [exact F'|].
    rewrite (fold_fresh _ _ _ key_eqb_spec); [reflexivity| |intros e _ []].
    now rewrite (link_entries_keys _ _ _ _ F').
Qed.

Lemma web_page_links_in_document_order_witness :
  DownloadPageAPI.get_web_page_links Fixture.urljoin Fixture.downloads
    (Fixture.always Fixture.download_page) []
  = (Returned [(Some "Name", "http://h/x"); (None, "http://h/y");
               (Some "Top", "http://h/dir/")],
     [page_request "http://h/dir/"]).
Proof.
  apply (proj2 (web_page_links_in_document_order Fixture.urljoin Fixture.downloads
                  (Fixture.always Fixture.download_page) [] Fixture.download_page eq_refl)).
  - repeat constructor.
  - repeat constructor; simpl; intuition discriminate.
Defined.

(** ** The project in the URLs of the GitLab lookup *)

Lemma replace_slash_encoded_cons (c : ascii) (s : string) :
  Str.replace "/" "%2F" (String c s) =
  if Ascii.eqb c "/"
  then "%2F" ++ Str.replace "/" "%2F" s
  else String c (Str.replace "/" "%2F" s).
Proof.
  unfold Str.replace. simpl.
  destruct (Ascii.eqb c "/"); reflexivity.
Qed.

Lemma replace_slash_encoded_free (s : string) :
  Str.mem "/" (Str.replace "/" "%2F" s) = false.
Proof.
  induction s as [|c s IH]; [reflexivity|].
  rewrite replace_slash_encoded_cons.
  destruct (Ascii.eqb c "/") eqn:Hc.
  - rewrite mem_app, IH. reflexivity.
  - simpl. now rewrite (Ascii.eqb_sym "/" c), Hc, IH.
Qed.

Lemma replace_slash_encoded_id (s : string) :
  Str.mem "/" s = false -> Str.replace "/" "%2F" s = s.
Proof.
  induction s as [|c s IH]; [reflexivity|].
  simpl. intros H. apply orb_false_iff in H as [Hc Hs].
  rewrite replace_slash_encoded_cons, (Ascii.eqb_sym c "/"), Hc, (IH Hs). reflexivity.
Qed.

(** X17: the direct lookup of [find_project_id] sends the project as one
    path segment: the last segment of the URL is the project with every
    slash written "%2F", which holds no slash, and which is the project
    itself when the project holds none.  The search sends the last segment
    of the project path, which holds no slash either. *)
Theorem gitlab_lookup_one_segment :
  forall (self : GitlabAPI.t) (project : string),
    let encoded := Str.replace "/" "%2F" project in
    let name := Str.last_item (Str.split "/" (GitlabAPI.project_path self)) in
    url (lookup_request self project)
    = (GitlabAPI.forge_root self ++ "/api/v4/projects") ++ "/" ++ encoded /\
    Str.last_item (Str.split "/" (url (lookup_request self project))) = encoded /\
    Str.mem "/" encoded = false /\
    (Str.mem "/" project = false -> encoded = project) /\
    url (search_request self)
    = GitlabAPI.forge_root self ++ "/api/v4/projects?search=" ++ name /\
    Str.mem "/" name = false.
Proof.
  intros self project encoded name.
  assert (E : url (lookup_request self project)
              = (GitlabAPI.forge_root self ++ "/api/v4/projects") ++ "/" ++ encoded).
  { unfold lookup_request. simpl. now rewrite append_assoc. }
  split; [exact E|]. split; [|split; [|split; [|split]]].
  - rewrite E. apply last_item_split_app. apply replace_slash_encoded_free.
  - apply replace_slash_encoded_free.
  - apply replace_slash_encoded_id.
  - reflexivity.
  - apply last_item_split_slash_free.
Qed.

Lemma gitlab_lookup_one_segment_witness :
  url (lookup_request Fixture.gitlab_unresolved "group/project")
  = "https://gitlab.example/api/v4/projects/group%2Fproject" /\
  Str.replace "/" "%2F" "project" = "project".
Proof.
  split; [reflexivity|].
  apply (proj1 (proj2 (proj2 (proj2
           (gitlab_lookup_one_segment Fixture.gitlab_unresolved "project"))))).
  reflexivity.
Defined.
